(** * InverSynth: a shallow embedding of the spectrogram-CNN pipeline

    The Python module [models/a.py] loads a short audio clip, assembles a
    convolutional network on top of a trainable STFT layer, trains it and
    reconstructs audio from a prediction.  This development embeds the
    module's functions ([input_raw_audio], [fit], [predict],
    [assemble_model] and the script body) and the parts of numpy, Keras,
    kapre and librosa they rely on, and states the properties of the design
    document against that embedding.

    Conventions.  Python exceptions are values of [PyError] carried by
    [result]; dynamically typed values are [PyVal]; numpy arrays are a shape
    with row-major data.  The frame and sample counts of the audio loader
    are computed in IEEE binary64, as Python computes them ([spec_float]
    with 53 bits of precision); the validation fraction of the script is a
    rational ([Q]); the activations of the network are over the reals
    ([R]). *)

From Stdlib Require Import ZArith QArith Qround List String Ascii Lia Reals Lra Bool.
From Stdlib Require Import SpecFloat.
From stdpp Require Import gmap strings.
Import ListNotations.
Local Open Scope string_scope.
Local Open Scope list_scope.

Set Warnings "-abstract-large-number,-register-all".

(** ** Python values and exceptions *)

Inductive PyError : Type :=
  | IOError
  | IndexError
  | ValueError
  | AssertionError
  | OverflowError
  | ZeroDivisionError
  | ShapeError
  | DimensionMismatchError.

Inductive result (A : Type) : Type :=
  | Ok (a : A)
  | Raise (e : PyError).

Arguments Ok {A} a.
Arguments Raise {A} e.

(** [result] is an exception monad; the instances give it the usual
    [x ← r; k] notation and [mapM]. *)
#[global] Instance result_ret : MRet result := fun A a => Ok a.

#[global] Instance result_bind : MBind result := fun A B k r =>
  match r with
  | Ok a => k a
  | Raise e => Raise e
  end.

Fixpoint foldM {A B : Type} (f : B -> A -> result B) (l : list A) (b : B)
  : result B :=
  match l with
  | [] => Ok b
  | a :: l' => b' ← f b a; foldM f l' b'
  end.

Definition is_ok {A : Type} (r : result A) : bool :=
  match r with Ok _ => true | Raise _ => false end.

(** The dynamically typed values the module passes around: [None], booleans,
    integers, strings and function objects (identified by qualified name). *)
Inductive PyVal : Type :=
  | PyNone
  | PyBool (b : bool)
  | PyInt (z : Z)
  | PyStr (s : string)
  | PyFunc (qualname : string).

Definition str_is_empty (s : string) : bool :=
  match s with EmptyString => true | String _ _ => false end.

(** Truth value testing, as used by [if]. *)
Definition truthy (v : PyVal) : bool :=
  match v with
  | PyNone => false
  | PyBool b => b
  | PyInt z => negb (z =? 0)%Z
  | PyStr s => negb (str_is_empty s)
  | PyFunc _ => true
  end.

(** The [==] operator.  Booleans are integers; a function object equals only
    itself; values of unrelated types are unequal. *)
Definition py_eq (a b : PyVal) : bool :=
  match a, b with
  | PyNone, PyNone => true
  | PyBool x, PyBool y => Bool.eqb x y
  | PyBool x, PyInt z | PyInt z, PyBool x => (z =? (if x then 1 else 0))%Z
  | PyInt x, PyInt y => (x =? y)%Z
  | PyStr s, PyStr t => String.eqb s t
  | PyFunc f, PyFunc g => String.eqb f g
  | _, _ => false
  end.

(** ** Python numbers *)

(** A Python [float] is an IEEE 754 binary64 value. *)
Definition prec : Z := 53.
Definition emax : Z := 1024.

Definition float : Type := spec_float.

(** The binary64 value nearest to an integer, ties to even. *)
Definition float_round (z : Z) : float := binary_normalize prec emax z 0 false.

(** [float(z)] for an [int], also where an [int] meets a [float] in a
    product or a quotient: an integer too large for binary64 is refused. *)
Definition float_of_int (z : Z) : result float :=
  match float_round z with
  | S754_infinity _ => Raise OverflowError
  | x => Ok x
  end.

Definition float_mul (x y : float) : float := SFmul prec emax x y.
Definition float_div (x y : float) : float := SFdiv prec emax x y.

(** A decimal literal [num/den] with [den] a power of ten, such as [.2]
    for [2/10]: the binary64 value nearest to it. *)
Definition float_literal (num den : Z) : float :=
  float_div (float_round num) (float_round den).

(** The integer part of a finite float, toward zero. *)
Definition float_trunc (m : positive) (e : Z) : Z :=
  match e with
  | Zneg p => Z.shiftr (Zpos m) (Zpos p)
  | _ => Z.shiftl (Zpos m) e
  end.

(** Whether a finite float has a fractional part. *)
Definition float_has_fraction (m : positive) (e : Z) : bool :=
  match e with
  | Zneg p => negb (Z.land (Zpos m) (Z.ones (Zpos p)) =? 0)%Z
  | _ => false
  end.

(** [int(x)] for a [float]: truncation toward zero; infinities and NaN are
    refused. *)
Definition int_of_float (x : float) : result Z :=
  match x with
  | S754_zero _ => Ok 0%Z
  | S754_finite s m e =>
      Ok (if s then (- float_trunc m e)%Z else float_trunc m e)
  | S754_infinity _ => Raise OverflowError
  | S754_nan => Raise ValueError
  end.

(** [int(np.ceil(x))]. *)
Definition int_of_ceil (x : float) : result Z :=
  match x with
  | S754_zero _ => Ok 0%Z
  | S754_finite s m e =>
      if s then Ok (- float_trunc m e)%Z
      else Ok (if float_has_fraction m e
               then (float_trunc m e + 1)%Z else float_trunc m e)
  | S754_infinity _ => Raise OverflowError
  | S754_nan => Raise ValueError
  end.

(** A number as a caller may pass it: an [int] or a [float]. *)
Inductive PyNum : Type :=
  | NumInt (z : Z)
  | NumFloat (x : float).

(** [a * n] for a number [a] and an [int] [n]: exact on integers, a
    binary64 product otherwise. *)
Definition num_mul_int (a : PyNum) (n : Z) : result PyNum :=
  match a with
  | NumInt z => Ok (NumInt (z * n))
  | NumFloat x => y ← float_of_int n; Ok (NumFloat (float_mul x y))
  end.

(** [int(a)]. *)
Definition num_int (a : PyNum) : result Z :=
  match a with
  | NumInt z => Ok z
  | NumFloat x => int_of_float x
  end.

(** [int(a * n)]. *)
Definition int_of_product (a : PyNum) (n : Z) : result Z :=
  p ← num_mul_int a n; num_int p.

(** ** numpy arrays and basic indexing *)

Record ndarray (A : Type) : Type := NDArray {
  shape : list nat;
  data : list A
}.

Arguments NDArray {A} shape data.
Arguments shape {A} n.
Arguments data {A} n.

Definition size_of (shp : list nat) : nat := fold_right Nat.mul 1 shp.

Definition ndim {A : Type} (a : ndarray A) : nat := length (shape a).

(** [blocks n w d]: the [n] consecutive runs of [w] elements of [d]. *)
Definition blocks {A : Type} (n w : nat) (d : list A) : list (list A) :=
  map (fun k => take w (drop (k * w) d)) (seq 0 n).

Inductive Index : Type :=
  | Int (i : Z)
  | FullSlice.

(** An integer index on an axis of extent [n]; negative indices count from
    the end. *)
Definition norm_axis (n : nat) (i : Z) : option nat :=
  if ((0 <=? i) && (i <? Z.of_nat n))%Z then Some (Z.to_nat i)
  else if ((- Z.of_nat n <=? i) && (i <? 0))%Z then Some (Z.to_nat (Z.of_nat n + i))
  else None.

Fixpoint getitem_shape (idx : list Index) (shp : list nat) : result (list nat) :=
  match idx, shp with
  | [], _ => Ok shp
  | _ :: _, [] => Raise IndexError
  | Int i :: idx', n :: shp' =>
      match norm_axis n i with
      | Some _ => getitem_shape idx' shp'
      | None => Raise IndexError
      end
  | FullSlice :: idx', n :: shp' =>
      s ← getitem_shape idx' shp'; Ok (n :: s)
  end.

Fixpoint getitem_data {A : Type} (idx : list Index) (shp : list nat)
  (d : list A) : list A :=
  match idx, shp with
  | [], _ => d
  | _ :: _, [] => d
  | Int i :: idx', n :: shp' =>
      match norm_axis n i with
      | Some k => getitem_data idx' shp' (take (size_of shp') (drop (k * size_of shp') d))
      | None => []
      end
  | FullSlice :: idx', n :: shp' =>
      concat (map (getitem_data idx' shp') (blocks n (size_of shp') d))
  end.

(** [a[idx]] for a tuple of integers and [:]. *)
Definition getitem {A : Type} (idx : list Index) (a : ndarray A)
  : result (ndarray A) :=
  s ← getitem_shape idx (shape a);
  Ok (NDArray s (getitem_data idx (shape a) (data a))).

(** ** Inference: [predict] *)

(** A [keras.Model] as seen by [predict]: an object with a [predict] method
    from an input batch to an output batch. *)
Record KerasModel (A : Type) : Type := {
  model_predict : ndarray A -> result (ndarray A)
}.

Arguments model_predict {A} k x.

(** The attribute [keras.backend.image_data_format]: a function object.
    Calling it would return the configured layout string. *)
Definition keras_backend_image_data_format : PyVal :=
  PyFunc "keras.backend.image_data_format".

Record KerasConfig : Type := {
  image_data_format : string
}.

Definition call_image_data_format (cfg : KerasConfig) : PyVal :=
  PyStr (image_data_format cfg).

Definition predict {A : Type} (model : KerasModel A) (x : ndarray A)
  (logam : PyVal) : result (ndarray A) :=
  result ← model_predict model x;
  let is_channels_first :=
    py_eq keras_backend_image_data_format (PyStr "channels_first") in
  if is_channels_first
  then getitem [Int 0; Int 0] result
  else getitem [Int 0; FullSlice; FullSlice; Int 0] result.

(** The design document's reading of [predict]: the slice taken follows the
    layout the backend is configured with. *)
Definition predict_by_layout {A : Type} (cfg : KerasConfig)
  (model : KerasModel A) (x : ndarray A) : result (ndarray A) :=
  result ← model_predict model x;
  if py_eq (call_image_data_format cfg) (PyStr "channels_first")
  then getitem [Int 0; Int 0] result
  else getitem [Int 0; FullSlice; FullSlice; Int 0] result.

(** A model that returns its input batch unchanged (a graph with no layer
    between input and output). *)
Definition identity_model (A : Type) : KerasModel A :=
  {| model_predict := fun x => Ok x |}.

(** ** Layers and the functional graph *)

(** One convolutional stage, as the [ArchLayer] dataclass. *)
Record ArchLayer : Type := mkArchLayer {
  filters : nat;
  window_size : nat * nat;
  strides : nat * nat;
  activation : string
}.

(** The dataclass default: [activation = 'relu']. *)
Definition ArchLayer_default (f : nat) (w s : nat * nat) : ArchLayer :=
  mkArchLayer f w s "relu".

(** The functions of [keras.activations] (Keras 2.3, the release the
    kapre [Spectrogram] layer is written for). *)
Inductive Activation : Type :=
  | Linear
  | Relu
  | Sigmoid
  | Tanh
  | Softmax
  | Elu
  | Selu
  | Softplus
  | Softsign
  | HardSigmoid
  | Exponential.

(** [keras.activations.get]: [None] is the identity, a name is looked up
    among the functions of the module, and an unknown name is rejected
    when the layer is constructed. *)
Definition activations_get (name : option string) : result Activation :=
  match name with
  | None => Ok Linear
  | Some s =>
      if String.eqb s "linear" then Ok Linear
      else if String.eqb s "relu" then Ok Relu
      else if String.eqb s "sigmoid" then Ok Sigmoid
      else if String.eqb s "tanh" then Ok Tanh
      else if String.eqb s "softmax" then Ok Softmax
      else if String.eqb s "elu" then Ok Elu
      else if String.eqb s "selu" then Ok Selu
      else if String.eqb s "softplus" then Ok Softplus
      else if String.eqb s "softsign" then Ok Softsign
      else if String.eqb s "hard_sigmoid" then Ok HardSigmoid
      else if String.eqb s "exponential" then Ok Exponential
      else Raise ValueError
  end.

Inductive Layer : Type :=
  | Spectrogram (n_dft n_hop : nat) (input_shape : list nat)
      (trainable_kernel : bool) (name : string) (layout : string)
  | Conv2D (nfilters : nat) (kernel_size stride : nat * nat)
      (act : option string) (data_format : string)
  | Dense (units : nat) (act : option string) (name : option string).

(** Extent of a convolved axis without padding. *)
Definition conv_output_length (n k s : nat) : result nat :=
  if (k =? 0)%nat || (s =? 0)%nat then Raise ValueError
  else if (n <? k)%nat then Raise ValueError
  else Ok ((n - k + s) / s)%nat.

Definition is_power_of_two (n : nat) : bool :=
  (Nat.land n (n - 1) =? 0)%nat.

(** The shape a layer gives to an input of shape [s], or the exception
    raised when the layer is constructed or first called.  Shapes exclude
    the batch axis, as [keras.Input(shape=...)] does.

    [Spectrogram] (kapre): the constructor asserts that [n_dft] is a power
    of two above 1 and that the layout is a known one; [build] reads the
    channel count and the source length from the input shape (an
    [IndexError] when the example has fewer than two axes) and asserts
    [len_src >= n_dft]; the frame count is [ceil(len_src / n_hop)].

    [Conv2D] (Keras): the filter count must be positive, the activation
    and the data format known, the example must have three axes, and
    without padding the kernel must fit the feature map. *)
Definition layer_shape (l : Layer) (s : list nat) : result (list nat) :=
  match l with
  | Spectrogram n_dft n_hop _ _ _ layout =>
      if negb ((1 <? n_dft)%nat && is_power_of_two n_dft)
      then Raise AssertionError
      else if negb (String.eqb layout "channels_first"
                    || String.eqb layout "channels_last")
      then Raise AssertionError
      else
        match s with
        | [] | [_] => Raise IndexError
        | n_ch :: len_src :: rest =>
            if (len_src <? n_dft)%nat then Raise AssertionError
            else if (n_hop =? 0)%nat then Raise ZeroDivisionError
            else
              match rest with
              | [] =>
                  let n_filter := (n_dft / 2 + 1)%nat in
                  let n_frame := ((len_src + n_hop - 1) / n_hop)%nat in
                  if String.eqb layout "channels_first"
                  then Ok [n_ch; n_filter; n_frame]
                  else Ok [n_filter; n_frame; n_ch]
              | _ :: _ => Raise ValueError
              end
        end
  | Conv2D nfilters (k1, k2) (s1, s2) act data_format =>
      _ ← (if (nfilters =? 0)%nat then Raise ValueError else Ok tt);
      _ ← activations_get act;
      if String.eqb data_format "channels_first" then
        match s with
        | [_; h; w] =>
            h' ← conv_output_length h k1 s1;
            w' ← conv_output_length w k2 s2;
            Ok [nfilters; h'; w']
        | _ => Raise ValueError
        end
      else if String.eqb data_format "channels_last" then
        match s with
        | [h; w; _] =>
            h' ← conv_output_length h k1 s1;
            w' ← conv_output_length w k2 s2;
            Ok [h'; w'; nfilters]
        | _ => Raise ValueError
        end
      else Raise ValueError
  | Dense units act _ =>
      _ ← activations_get act;
      match s with
      | [] => Raise ValueError
      | _ :: _ => Ok (removelast s ++ [units])
      end
  end.

(** A symbolic tensor of the functional API: an input placeholder, or the
    result of calling a layer on an earlier tensor. *)
Inductive KTensor : Type :=
  | KInput (shp : list nat) (name : string)
  | KCall (l : Layer) (arg : KTensor).

Fixpoint kshape (t : KTensor) : result (list nat) :=
  match t with
  | KInput shp _ => Ok shp
  | KCall l arg => s ← kshape arg; layer_shape l s
  end.

(** [layer(x)]: the static shape is computed, and checked, when the layer is
    called on the tensor. *)
Definition call (l : Layer) (x : KTensor) : result KTensor :=
  _ ← kshape (KCall l x); Ok (KCall l x).

Record Model : Type := mkModel {
  inputs : KTensor;
  outputs : KTensor
}.

Definition conv_of (arch_layer : ArchLayer) : Layer :=
  Conv2D (filters arch_layer) (window_size arch_layer) (strides arch_layer)
    (Some (activation arch_layer)) "channels_first".

Definition assemble_model {A : Type} (src : ndarray A)
  (arch_layers : list ArchLayer) : result Model :=
  let inputs := KInput (shape src) "stft" in
  let n_dft := 128%nat in
  let n_hop := 64%nat in
  x ← call (Spectrogram n_dft n_hop (shape src) true "static_stft"
              "channels_first") inputs;
  x ← foldM (fun x arch_layer => call (conv_of arch_layer) x) arch_layers x;
  x ← call (Dense 512 None None) x;
  outputs ← call (Dense 368 (Some "sigmoid") (Some "predictions")) x;
  Ok (mkModel inputs outputs).

(** The layers from the input placeholder to the tensor, in call order. *)
Inductive Node : Type :=
  | InputNode (shp : list nat) (name : string)
  | LayerNode (l : Layer).

Fixpoint nodes_of (t : KTensor) : list Node :=
  match t with
  | KInput shp name => [InputNode shp name]
  | KCall l arg => nodes_of arg ++ [LayerNode l]
  end.

Fixpoint root (t : KTensor) : KTensor :=
  match t with
  | KInput _ _ => t
  | KCall _ arg => root arg
  end.

(** The shape the graph below [t] expects of one example. *)
Definition input_shape_of (t : KTensor) : list nat :=
  match root t with
  | KInput shp _ => shp
  | KCall _ _ => []
  end.

Fixpoint depth (t : KTensor) : nat :=
  match t with
  | KInput _ _ => 0
  | KCall _ arg => S (depth arg)
  end.

(** The design document's convolution for one specification: "a 2D
    convolution with that spec's filter count, kernel window, stride, and
    activation (channel-first layout throughout)". *)
Definition described_conv (spec : ArchLayer) : Node :=
  match spec with
  | mkArchLayer spec_filters spec_window spec_stride spec_activation =>
      LayerNode (Conv2D spec_filters spec_window spec_stride
                   (Some spec_activation) "channels_first")
  end.

(** The graph the design document describes for a source shape and a list
    of layer specifications: "input node shaped per [input_shape], trainable
    spectral-transform layer, for each spec in [layer_specs] in order a 2D
    convolution, dense layer (512 units, linear activation), dense output
    layer (368 units, sigmoid activation, named predictions)". *)
Definition described_graph (input_shape : list nat)
  (layer_specs : list ArchLayer) : list Node :=
  [InputNode input_shape "stft";
   LayerNode (Spectrogram 128 64 input_shape true "static_stft"
                "channels_first")]
  ++ map described_conv layer_specs
  ++ [LayerNode (Dense 512 None None);
      LayerNode (Dense 368 (Some "sigmoid") (Some "predictions"))].

(** "Each spec's kernel and stride must not exceed the spatial dimensions
    remaining after prior layers", for a feature map of [h] by [w]. *)
Inductive fits : list ArchLayer -> nat -> nat -> Prop :=
  | fits_nil h w : fits [] h w
  | fits_cons spec rest h w :
      (0 < fst (window_size spec) <= h)%nat ->
      (0 < snd (window_size spec) <= w)%nat ->
      (0 < fst (strides spec))%nat ->
      (0 < snd (strides spec))%nat ->
      is_ok (activations_get (Some (activation spec))) = true ->
      fits rest
        ((h - fst (window_size spec)) / fst (strides spec) + 1)%nat
        ((w - snd (window_size spec)) / snd (strides spec) + 1)%nat ->
      fits (spec :: rest) h w.

(** ** Forward pass over the reals *)

Definition sigmoid (x : R) : R := (/ (1 + exp (- x)))%R.

Definition elu (x : R) : R := if Rlt_dec 0 x then x else (exp x - 1)%R.

Definition selu (x : R) : R :=
  (1.0507009873554804934193349852946
   * (if Rlt_dec 0 x then x
      else 1.6732632423543772848170429916717 * (exp x - 1)))%R.

Definition softplus (x : R) : R := ln (exp x + 1).

Definition softsign (x : R) : R := (x / (Rabs x + 1))%R.

Definition hard_sigmoid (x : R) : R := Rmax 0 (Rmin 1 (0.2 * x + 0.5)).

(** [softmax] normalises along the last axis. *)
Definition softmax (row : list R) : list R :=
  let es := map exp row in
  let z := fold_right Rplus 0%R es in
  map (fun e => (e / z)%R) es.

(** An activation on one run of the last axis. *)
Definition activate (a : Activation) (row : list R) : list R :=
  match a with
  | Linear => row
  | Relu => map (Rmax 0) row
  | Sigmoid => map sigmoid row
  | Tanh => map tanh row
  | Softmax => softmax row
  | Elu => map elu row
  | Selu => map selu row
  | Softplus => map softplus row
  | Softsign => map softsign row
  | HardSigmoid => map hard_sigmoid row
  | Exponential => map exp row
  end.

(** The numeric kernels of the tensor engine and the current weights.  The
    STFT filter bank and the convolutions are opaque; the dense layers are
    spelled out.  Layers are told apart by their depth in the graph. *)
Record Numerics : Type := {
  stft_kernel : nat -> nat -> list nat -> list R -> list R;
  conv_kernel : nat -> Layer -> list nat -> list R -> list R;
  dense_kernel : nat -> nat -> nat -> R;
  dense_bias : nat -> nat -> R
}.

Definition dot (d : nat) (row : list R) (w : nat -> R) : R :=
  fold_right Rplus 0%R (map (fun i => (nth i row 0 * w i)%R) (seq 0 d)).

Definition dense_row (a : Activation) (d units : nat)
  (kernel : nat -> nat -> R) (bias : nat -> R) (row : list R) : list R :=
  activate a
    (map (fun j => (dot d row (fun i => kernel i j) + bias j)%R)
         (seq 0 units)).

(** A dense layer acts on the last axis: every run of [d] values becomes a
    run of [units] values. *)
Definition dense_data (a : Activation) (units : nat)
  (kernel : nat -> nat -> R) (bias : nat -> R) (s : list nat) (d : list R)
  : list R :=
  let width := List.last s 0%nat in
  concat (map (dense_row a width units kernel bias)
              (blocks (size_of (removelast s)) width d)).

Definition apply_layer (num : Numerics) (i : nat) (l : Layer)
  (x : ndarray R) : result (ndarray R) :=
  s ← layer_shape l (shape x);
  match l with
  | Spectrogram n_dft n_hop _ _ _ _ =>
      Ok (NDArray s (stft_kernel num n_dft n_hop (shape x) (data x)))
  | Conv2D _ _ _ _ _ =>
      Ok (NDArray s (conv_kernel num i l (shape x) (data x)))
  | Dense units act _ =>
      a ← activations_get act;
      Ok (NDArray s (dense_data a units (dense_kernel num i)
                       (dense_bias num i) (shape x) (data x)))
  end.

(** Evaluate the graph below [t] on one example. *)
Fixpoint forward (num : Numerics) (t : KTensor) (x : ndarray R)
  : result (ndarray R) :=
  match t with
  | KInput shp _ =>
      if decide (shape x = shp) then Ok x else Raise ValueError
  | KCall l arg => y ← forward num arg x; apply_layer num (depth arg) l y
  end.

(** [model.predict] of an assembled model: the examples of the batch are
    evaluated one by one and stacked; an empty batch is refused. *)
Definition batch_predict (num : Numerics) (m : Model) (x : ndarray R)
  : result (ndarray R) :=
  match shape x with
  | [] => Raise ValueError
  | O :: _ => Raise ValueError
  | b :: s =>
      ys ← mapM (fun d => forward num (outputs m) (NDArray s d))
               (blocks b (size_of s) (data x));
      s' ← kshape (outputs m);
      Ok (NDArray (b :: s') (concat (map data ys)))
  end.

Definition compiled (num : Numerics) (m : Model) : KerasModel R :=
  {| model_predict := batch_predict num m |}.

(** Kernels and weights that are zero throughout, for concrete runs. *)
Definition zero_numerics : Numerics :=
  {| stft_kernel := fun _ _ _ _ => [];
     conv_kernel := fun _ _ _ _ => [];
     dense_kernel := fun _ _ _ => 0%R;
     dense_bias := fun _ _ => 0%R |}.

(** The single stage of the script: C(38,13,26,13,26). *)
Definition c1 : ArchLayer := ArchLayer_default 38 (13, 26)%nat (13, 26)%nat.
Definition c1_layers : list ArchLayer := [c1].

(** The source array of the script: one channel, 16384 samples.  Only its
    shape matters to the graph. *)
Definition src0 : ndarray Z := NDArray [1; 16384]%nat [].

(** The model the script assembles from [src0] and [c1_layers]. *)
Definition script_model : Model :=
  let inputs := KInput [1; 16384]%nat "stft" in
  mkModel inputs
    (KCall (Dense 368 (Some "sigmoid") (Some "predictions"))
       (KCall (Dense 512 None None)
          (KCall (conv_of c1)
             (KCall (Spectrogram 128 64 [1; 16384]%nat true "static_stft"
                       "channels_first") inputs)))).

(** ** Training: [fit] *)

(** One epoch's record in the training history. *)
Record HistoryEntry (L : Type) : Type := mkEntry {
  train_loss : L;
  val_loss : L
}.

Arguments mkEntry {L} train_loss val_loss.
Arguments train_loss {L} h.
Arguments val_loss {L} h.

(** The optimiser and loss kernels of the tensor engine: one gradient step
    on a mini-batch, the epoch loss from the batch losses, and the loss on
    held-out data. *)
Record Trainer : Type := {
  weights : Type;
  example : Type;
  target : Type;
  loss : Type;
  train_on_batch : weights -> list (example * target) -> weights * loss;
  mean_loss : list loss -> loss;
  evaluate : weights -> list (example * target) -> loss
}.

Fixpoint chunks_aux {A : Type} (fuel n : nat) (l : list A) : list (list A) :=
  match fuel with
  | O => []
  | S fuel' =>
      match l with
      | [] => []
      | _ :: _ => take n l :: chunks_aux fuel' n (drop n l)
      end
  end.

(** Mini-batches of [n] examples; the last one may be smaller. *)
Definition minibatches {A : Type} (n : nat) (l : list A) : list (list A) :=
  chunks_aux (length l) n l.

Definition train_epoch (T : Trainer) (w : weights T)
  (batches : list (list (example T * target T))) : weights T * loss T :=
  let '(w', ls) :=
    fold_left (fun (acc : weights T * list (loss T)) batch =>
                 let '(w1, l) := train_on_batch T (fst acc) batch in
                 (w1, snd acc ++ [l]))
              batches (w, []) in
  (w', mean_loss T ls).

(** Modelled from the spec: the engine's own fit loop, which is not part of
    this repository.  "Repeatedly, for [epochs] iterations, partitions the
    training data into mini-batches of [batch_size], performs one
    gradient-update step per batch, then evaluates loss on the validation
    data"; one history entry is appended per completed epoch. *)
Fixpoint run_epochs (T : Trainer) (epochs : nat) (w : weights T)
  (train val : list (example T * target T)) (batch_size : nat)
  : weights T * list (HistoryEntry (loss T)) :=
  match epochs with
  | O => (w, [])
  | S epochs' =>
      let '(w1, l) := train_epoch T w (minibatches batch_size train) in
      let entry := mkEntry l (evaluate T w1 val) in
      let '(w2, h) := run_epochs T epochs' w1 train val batch_size in
      (w2, entry :: h)
  end.

(** Modelled from the spec: [model.fit] fails when inputs and targets
    disagree in their leading dimension, or when the validation data is
    empty while there is an epoch to run. *)
Definition model_fit (T : Trainer) (w : weights T)
  (x : list (example T)) (y : list (target T))
  (batch_size epochs : nat)
  (validation_data : list (example T) * list (target T))
  : result (weights T * list (HistoryEntry (loss T))) :=
  let '(x_val, y_val) := validation_data in
  if negb (length x =? length y)%nat
     || negb (length x_val =? length y_val)%nat
  then Raise DimensionMismatchError
  else if (0 <? epochs)%nat && (length x_val =? 0)%nat
  then Raise DimensionMismatchError
  else Ok (run_epochs T epochs w (zip x y) (zip x_val y_val) batch_size).

(** What a Python function of this module can hand back or log. *)
Inductive PyObj (T : Trainer) : Type :=
  | ObjModel (w : weights T)
  | ObjHistory (h : list (HistoryEntry (loss T)))
  | ObjTuple (items : list (PyObj T)).

Arguments ObjModel {T} w.
Arguments ObjHistory {T} h.
Arguments ObjTuple {T} items.

(** A call [logging.info(msg, *args)]. *)
Record LogRecord (T : Trainer) : Type := Info {
  log_msg : string;
  log_args : list (PyObj T)
}.

Arguments Info {T} log_msg log_args.
Arguments log_msg {T} l.
Arguments log_args {T} l.

Definition newline : string := String (ascii_of_nat 10) EmptyString.

(** [fit]: the records logged, and the value returned or the exception. *)
Definition fit (T : Trainer) (model : weights T)
  (x_train : list (example T)) (y_train : list (target T))
  (x_val : list (example T)) (y_val : list (target T))
  (batch_size epochs : nat) : list (LogRecord T) * result (PyObj T) :=
  let started := Info "# Fit model on training data" [] in
  match model_fit T model x_train y_train batch_size epochs (x_val, y_val) with
  | Raise e => ([started], Raise e)
  | Ok (model', history) =>
      ([started; Info (newline ++ "history dict:")%string [ObjHistory history]],
       Ok (ObjModel model'))
  end.

(** The keyword defaults: [batch_size = 16], [epochs = 100]. *)
Definition fit_default (T : Trainer) (model : weights T)
  (x_train : list (example T)) (y_train : list (target T))
  (x_val : list (example T)) (y_val : list (target T))
  : list (LogRecord T) * result (PyObj T) :=
  fit T model x_train y_train x_val y_val 16 100.

(** The weights after [k] epochs. *)
Definition weights_after (T : Trainer) (k : nat) (w : weights T)
  (train val : list (example T * target T)) (batch_size : nat) : weights T :=
  fst (run_epochs T k w train val batch_size).

(** A trainer that counts its gradient steps, for concrete runs. *)
Definition counting_trainer : Trainer :=
  {| weights := nat;
     example := nat;
     target := nat;
     loss := nat;
     train_on_batch := fun w batch => (S w, length batch);
     mean_loss := fun ls => fold_right Nat.add 0%nat ls;
     evaluate := fun w _ => w |}.

(** ** Audio loading: [input_raw_audio] *)

(** A decoded mono sound file: its native rate and its frames. *)
Record AudioFile (S : Type) : Type := mkAudioFile {
  samplerate : Z;
  frames : list S
}.

Arguments mkAudioFile {S} samplerate frames.
Arguments samplerate {S} a.
Arguments frames {S} a.

(** The sample arithmetic of the resampler, opaque to this module: the
    value of silence and the interpolation kernel (signal, native rate,
    target rate). *)
Record Codec (S : Type) : Type := {
  silence : S;
  resample_kernel : list S -> Z -> Z -> list S
}.

Arguments silence {S} c.
Arguments resample_kernel {S} c y orig_sr target_sr.

(** [SoundFile.read(frames=n)]: a negative count reads to the end, and no
    more than what is left is returned. *)
Definition read_frames {S : Type} (n : Z) (l : list S) : list S :=
  if (n <? 0)%Z then l else take (Z.to_nat n) l.

(** [librosa.util.fix_length]: pad with silence or cut to [size]. *)
Definition fix_length {S : Type} (c : Codec S) (size : nat) (y : list S)
  : list S :=
  take size (y ++ repeat (silence c) (size - length y)).

(** [int(np.ceil(len * ratio))] with [ratio = float(target_sr) / orig_sr]:
    the number of samples after resampling, in binary64. *)
Definition resample_n_samples (len : nat) (orig_sr target_sr : Z) : result Z :=
  target ← float_of_int target_sr;
  orig ← float_of_int orig_sr;
  _ ← (if (orig_sr =? 0)%Z then Raise ZeroDivisionError else Ok tt);
  let ratio := float_div target orig in
  len ← float_of_int (Z.of_nat len);
  int_of_ceil (float_mul len ratio).

(** [librosa.resample]: nothing to do at equal rates; otherwise the kernel's
    output fixed to [n_samples] samples.  The kernel refuses a rate that is
    not positive. *)
Definition resample {S : Type} (c : Codec S) (y : list S)
  (orig_sr target_sr : Z) : result (list S) :=
  if (orig_sr =? target_sr)%Z then Ok y
  else
    n_samples ← resample_n_samples (length y) orig_sr target_sr;
    if (orig_sr <=? 0)%Z || (target_sr <=? 0)%Z then Raise ValueError
    else Ok (fix_length c (Z.to_nat n_samples)
               (resample_kernel c y orig_sr target_sr)).

(** [librosa.load(path, sr=sr, duration=duration)] on a file system of
    decoded files.  [sr = None] keeps the native rate; [duration = None]
    reads the whole file. *)
Definition librosa_load {S : Type} (fs : gmap string (AudioFile S))
  (c : Codec S) (path : string) (sr : option Z) (duration : option PyNum)
  : result (list S * Z) :=
  match fs !! path with
  | None => Raise IOError
  | Some f =>
      let sr_native := samplerate f in
      frame_duration ←
        match duration with
        | Some d => int_of_product d sr_native
        | None => Ok (-1)%Z
        end;
      let y := read_frames frame_duration (frames f) in
      match sr with
      | None => Ok (y, sr_native)
      | Some sr => y ← resample c y sr_native sr; Ok (y, sr)
      end
  end.

Definition input_raw_audio {S : Type} (fs : gmap string (AudioFile S))
  (c : Codec S) (path : string) (sr : option Z) (duration : PyNum)
  : result (list S * Z) :=
  '(y_audio, sample_rate) ← librosa_load fs c path sr (Some duration);
  Ok (y_audio, sample_rate).

(** The keyword defaults: [sr = 16384], [duration = 1.]. *)
Definition input_raw_audio_default {S : Type}
  (fs : gmap string (AudioFile S)) (c : Codec S) (path : string)
  : result (list S * Z) :=
  input_raw_audio fs c path (Some 16384%Z) (NumFloat (float_round 1)).

(** A codec over integer samples whose kernel repeats its input, for
    concrete runs. *)
Definition hold_codec : Codec Z :=
  {| silence := 0%Z; resample_kernel := fun y _ _ => y |}.


(** A one-second file of a hundred frames at 100 Hz. *)
Definition clip_fs : gmap string (AudioFile Z) :=
  {[ "clip.wav" := mkAudioFile 100%Z (map Z.of_nat (seq 0 100)) ]}.

(** ** Phase reconstruction: [stft_to_audio] *)

(** What [librosa.griffinlim] takes from the signal-processing library and
    from NumPy's global random generator, which it uses when it is given no
    [random_state]: [M] are magnitude arrays, [C] complex spectrograms, [W]
    waveforms and [G] states of the generator.  [random_angles] is
    [np.exp(2j * np.pi * rng.rand( *S.shape))], a draw that advances the
    generator; [istft_scaled S angles] is [istft(S * angles)];
    [project rebuilt tprev] is [rebuilt - (momentum / (1 + momentum)) *
    tprev] divided by its modulus. *)
Record GriffinLim (M C W G : Type) : Type := {
  random_angles : G -> M -> C * G;
  istft_scaled : M -> C -> W;
  stft_of : W -> C;
  project : C -> C -> C;
  zero_spectrum : C
}.

Arguments random_angles {M C W G} g s m.
Arguments istft_scaled {M C W G} g s angles.
Arguments stft_of {M C W G} g w.
Arguments project {M C W G} g rebuilt tprev.
Arguments zero_spectrum {M C W G} g.

(** One round of the loop: [(angles, rebuilt)] before and after. *)
Definition griffinlim_round {M C W G : Type} (E : GriffinLim M C W G) (S : M)
  (st : C * C) : C * C :=
  let '(angles, rebuilt) := st in
  let tprev := rebuilt in
  let inverse := istft_scaled E S angles in
  let rebuilt := stft_of E inverse in
  (project E rebuilt tprev, rebuilt).

(** [librosa.griffinlim(S, n_iter=n_iter)] with [init='random'] and
    [random_state=None], threading the state of the global generator. *)
Definition griffinlim {M C W G : Type} (E : GriffinLim M C W G) (S : M)
  (n_iter : nat) (rng : G) : W * G :=
  let '(angles, rng) := random_angles E rng S in
  let '(angles, _) :=
    Nat.iter n_iter (griffinlim_round E S) (angles, zero_spectrum E) in
  (istft_scaled E S angles, rng).

(** [stft_to_audio]: the library default of 32 rounds, and no seed. *)
Definition stft_to_audio {M C W G : Type} (E : GriffinLim M C W G) (S : M)
  (rng : G) : W * G :=
  griffinlim E S 32 rng.

(** Two calls one after the other in one process. *)
Definition stft_to_audio_twice {M C W G : Type} (E : GriffinLim M C W G)
  (S : M) (rng : G) : W * W :=
  let '(first, rng) := stft_to_audio E S rng in
  let '(second, _) := stft_to_audio E S rng in
  (first, second).

(** The design document's determinism: the waveform is a function of the
    magnitude array alone. *)
Definition deterministic {M C W G : Type} (E : GriffinLim M C W G) : Prop :=
  forall (S : M) (rng rng' : G),
    fst (stft_to_audio E S rng) = fst (stft_to_audio E S rng').

(** A small engine for concrete runs: spectra and waveforms are integer
    sequences, a phase is a sign, the transforms are the identity, and the
    generator is a counter whose bits give the signs drawn. *)
Definition sign_engine : GriffinLim (list Z) (list Z) (list Z) Z :=
  {| random_angles := fun rng S =>
       (map (fun i => if Z.testbit rng (Z.of_nat i) then (-1)%Z else 1%Z)
            (seq 0 (length S)),
        (rng + 1)%Z);
     istft_scaled := fun S angles => zip_with Z.mul S angles;
     stft_of := fun w => w;
     project := fun rebuilt _ =>
       map (fun v => if (v <? 0)%Z then (-1)%Z else 1%Z) rebuilt;
     zero_spectrum := [] |}.

(** ** The script body *)

(** [int(q)] on a rational: truncation toward zero. *)
Definition py_int (q : Q) : Z :=
  if Qle_bool 0 q then Qfloor q else Qceiling q.

(** A slice bound [i] on a sequence of length [n]: negative bounds count
    from the end, and every bound is clipped into [0..n]. *)
Definition slice_index (n : nat) (i : Z) : nat :=
  if (i <? 0)%Z then Z.to_nat (Z.max 0 (Z.of_nat n + i))
  else Z.to_nat (Z.min i (Z.of_nat n)).

(** [l[start:]] and [l[:stop]]. *)
Definition slice_from {A : Type} (start : Z) (l : list A) : list A :=
  drop (slice_index (length l) start) l.

Definition slice_until {A : Type} (stop : Z) (l : list A) : list A :=
  take (slice_index (length l) stop) l.

(** "Reserve samples for validation": the tail slice of the script, for
    [n_samples] examples and a validation fraction ([.2] in the script). *)
Definition reserve_validation {X Y : Type} (n_samples : Z) (fraction : Q)
  (x_train : list X) (y_train : list Y)
  : list X * list Y * list X * list Y :=
  let slice := py_int (inject_Z n_samples * fraction) in
  let x_val := slice_from (- slice) x_train in
  let y_val := slice_from (- slice) y_train in
  let x_train := slice_until (- slice) x_train in
  let y_train := slice_until (- slice) y_train in
  (x_train, y_train, x_val, y_val).

(** [os.getenv(key, default)]. *)
Definition os_getenv (environ : gmap string string) (key : string)
  (default : PyVal) : PyVal :=
  match environ !! key with
  | Some v => PyStr v
  | None => default
  end.

Definition dx7_sample (cwd : string) : string :=
  (cwd ++ "/audio/samples/Yamaha-DX7-Bass-C2.wav")%string.

Definition m1_sample (cwd : string) : string :=
  (cwd ++ "/audio/samples/M1_Piano_C4.wav")%string.

(** [os.getenv('AUDIO_WAV_INPUT', dx7_sample)]. *)
Definition input_audio_path (environ : gmap string string) (cwd : string)
  : PyVal :=
  os_getenv environ "AUDIO_WAV_INPUT" (PyStr (dx7_sample cwd)).

(** The effects of the block under [if os.getenv('EXPERIMENTATION', True)]. *)
Inductive Effect : Type :=
  | SaveModel (path : string)
  | PredictSample
  | WriteAudio (path : string).

Definition experimentation_block (environ : gmap string string)
  : list Effect :=
  if truthy (os_getenv environ "EXPERIMENTATION" (PyBool true))
  then [SaveModel "models/saved/dx7_sample.h5";
        PredictSample;
        WriteAudio "audio/outputs/new_audio.wav"]
  else [].

(** The design document's reading of the flag: the usual spellings of a
    boolean in an environment variable. *)
Definition flag_value (v : string) : option bool :=
  if String.eqb v "1" || String.eqb v "true" || String.eqb v "True"
  then Some true
  else if String.eqb v "0" || String.eqb v "false" || String.eqb v "False"
  then Some false
  else None.

(** [np.expand_dims(y, axis=0)] on a one-axis array. *)
Definition expand_dims0 {S : Type} (y : list S) : ndarray S :=
  NDArray [1%nat; length y] y.

(** A one-second file at the default rate. *)
Definition tone_fs : gmap string (AudioFile Z) :=
  {[ "tone.wav" := mkAudioFile 16384%Z (repeat 0%Z 16384) ]}.

(** * Properties *)

(** ** The exception monad *)

Lemma bind_Ok {A B : Type} (r : result A) (k : A -> result B) (b : B) :
  r ≫= k = Ok b -> exists a, r = Ok a /\ k a = Ok b.
Proof. destruct r as [a|e]; simpl; [eauto | discriminate]. Qed.

Lemma bind_Ok_l {A B : Type} (r : result A) (k : A -> result B) (a : A) :
  r = Ok a -> r ≫= k = k a.
Proof. intros ->. reflexivity. Qed.

Ltac inv_bind H :=
  let a := fresh "a" in
  let Ha := fresh "H" a in
  apply bind_Ok in H; destruct H as (a & Ha & H).

(** ** Building the graph *)

Lemma call_Ok (l : Layer) (x t : KTensor) :
  call l x = Ok t -> t = KCall l x /\ is_ok (kshape (KCall l x)) = true.
Proof.
  unfold call. intros H. inv_bind H. injection H as <-. rewrite Ha. auto.
Qed.

Lemma foldM_call_nodes (specs : list ArchLayer) : forall x y,
  foldM (fun x arch_layer => call (conv_of arch_layer) x) specs x = Ok y ->
  nodes_of y = nodes_of x ++ map (fun spec => LayerNode (conv_of spec)) specs
  /\ root y = root x.
Proof.
  induction specs as [|spec specs IH]; intros x y H; simpl in H.
  - injection H as <-. rewrite app_nil_r. auto.
  - inv_bind H. apply call_Ok in Ha as [-> _].
    apply IH in H as [-> ->]. simpl. rewrite <- app_assoc. auto.
Qed.

Lemma kshape_KCall_inv (l : Layer) (x : KTensor) (s' : list nat) :
  kshape (KCall l x) = Ok s' ->
  exists s, kshape x = Ok s /\ layer_shape l s = Ok s'.
Proof. simpl. intros H. inv_bind H. eauto. Qed.

Lemma call_inv (l : Layer) (x t : KTensor) :
  call l x = Ok t ->
  t = KCall l x /\ exists s s', kshape x = Ok s /\ layer_shape l s = Ok s'
                                /\ kshape t = Ok s'.
Proof.
  unfold call. intros H. inv_bind H. injection H as <-.
  split; [reflexivity|].
  destruct (kshape_KCall_inv _ _ _ Ha) as (s & Hs & Hl). eauto.
Qed.

Lemma conv_output_length_fits (n k s : nat) :
  (0 < k <= n)%nat -> (0 < s)%nat ->
  conv_output_length n k s = Ok ((n - k) / s + 1)%nat.
Proof.
  intros Hk Hs. unfold conv_output_length.
  destruct (Nat.eqb_spec k 0); [lia|]. destruct (Nat.eqb_spec s 0); [lia|].
  simpl. destruct (Nat.ltb_spec n k); [lia|].
  f_equal. replace (n - k + s)%nat with (n - k + 1 * s)%nat by lia.
  apply Nat.div_add. lia.
Qed.

Lemma conv_output_length_inv (n k s r : nat) :
  conv_output_length n k s = Ok r ->
  (0 < k <= n)%nat /\ (0 < s)%nat /\ r = ((n - k) / s + 1)%nat.
Proof.
  unfold conv_output_length.
  destruct (Nat.eqb_spec k 0); [discriminate|].
  destruct (Nat.eqb_spec s 0); [discriminate|]. cbn [orb].
  destruct (Nat.ltb_spec n k); [discriminate|].
  intros Hr. injection Hr as <-.
  split; [lia|]. split; [lia|].
  replace (n - k + s)%nat with (n - k + 1 * s)%nat by lia.
  apply Nat.div_add. lia.
Qed.

(** What a channels-first convolution accepts, and the shape it gives. *)
Lemma conv_shape_fits_inv (spec : ArchLayer) (s s' : list nat) :
  layer_shape (conv_of spec) s = Ok s' ->
  exists c h w,
    s = [c; h; w]
    /\ (0 < filters spec)%nat
    /\ (0 < fst (window_size spec) <= h)%nat
    /\ (0 < snd (window_size spec) <= w)%nat
    /\ (0 < fst (strides spec))%nat
    /\ (0 < snd (strides spec))%nat
    /\ is_ok (activations_get (Some (activation spec))) = true
    /\ s' = [filters spec;
             ((h - fst (window_size spec)) / fst (strides spec) + 1)%nat;
             ((w - snd (window_size spec)) / snd (strides spec) + 1)%nat].
Proof.
  unfold conv_of, layer_shape.
  destruct (window_size spec) as [k1 k2], (strides spec) as [s1 s2].
  intros H. inv_bind H.
  destruct (Nat.eqb_spec (filters spec) 0) as [|Hf]; [discriminate|].
  inv_bind H. rewrite Ha0. cbn [String.eqb Ascii.eqb Bool.eqb] in H.
  destruct s as [|c [|h [|w [|? ?]]]]; try discriminate.
  inv_bind H. inv_bind H. injection H as <-.
  apply conv_output_length_inv in Ha1 as (Hk1 & Hs1 & ->).
  apply conv_output_length_inv in Ha2 as (Hk2 & Hs2 & ->).
  exists c, h, w. cbn [fst snd]. repeat split; lia.
Qed.

Lemma conv_shape_inv (spec : ArchLayer) (s s' : list nat) :
  layer_shape (conv_of spec) s = Ok s' ->
  exists c h w h' w', s = [c; h; w] /\ s' = [filters spec; h'; w'].
Proof.
  intros H.
  apply conv_shape_fits_inv in H as (c & h & w & -> & _ & _ & _ & _ & _ & _ & ->).
  eauto 10.
Qed.

Lemma dense_shape_inv units act name (s s' : list nat) :
  layer_shape (Dense units act name) s = Ok s' ->
  s <> [] /\ s' = removelast s ++ [units] /\ is_ok (activations_get act) = true.
Proof.
  simpl. intros H. inv_bind H. rewrite Ha.
  destruct s; [discriminate|]. injection H as <-. auto.
Qed.

Lemma foldM_call_shape (specs : list ArchLayer) : forall x y c h w,
  foldM (fun x arch_layer => call (conv_of arch_layer) x) specs x = Ok y ->
  kshape x = Ok [c; h; w] ->
  exists c' h' w', kshape y = Ok [c'; h'; w'].
Proof.
  induction specs as [|spec specs IH]; intros x y c h w H Hx; simpl in H.
  - injection H as <-. eauto.
  - inv_bind H. apply call_inv in Ha as (-> & s & s' & Hs & Hl & Hk).
    apply conv_shape_inv in Hl as (? & ? & ? & h' & w' & _ & ->).
    eapply IH; eauto.
Qed.

(** What the spectrogram layer of [assemble_model] accepts. *)
Lemma spectrogram_shape_inv ish tk name (s s' : list nat) :
  layer_shape (Spectrogram 128 64 ish tk name "channels_first") s = Ok s' ->
  exists n_ch len_src,
    s = [n_ch; len_src]
    /\ (128 <= len_src)%nat
    /\ s' = [n_ch; 65%nat; ((len_src + 63) / 64)%nat].
Proof.
  unfold layer_shape.
  replace (negb ((1 <? 128)%nat && is_power_of_two 128)) with false
    by (vm_compute; reflexivity).
  replace (String.eqb "channels_first" "channels_first") with true
    by (vm_compute; reflexivity).
  cbn [orb negb].
  destruct s as [|n_ch [|len_src rest]]; try discriminate.
  destruct (Nat.ltb_spec len_src 128) as [|Hlen]; [discriminate|].
  cbn [Nat.eqb]. destruct rest; [|discriminate].
  intros H. injection H as <-.
  exists n_ch, len_src. split; [reflexivity|]. split; [exact Hlen|].
  replace (128 / 2 + 1)%nat with 65%nat by (vm_compute; reflexivity).
  replace (len_src + 64 - 1)%nat with (len_src + 63)%nat by lia.
  reflexivity.
Qed.

Lemma spectrogram_shape_ok (ish : list nat) (tk : bool) (name : string)
  (n_ch len_src : nat) :
  (128 <= len_src)%nat ->
  layer_shape (Spectrogram 128 64 ish tk name "channels_first") [n_ch; len_src]
  = Ok [n_ch; 65%nat; ((len_src + 63) / 64)%nat].
Proof.
  intros Hlen. unfold layer_shape.
  replace (negb ((1 <? 128)%nat && is_power_of_two 128)) with false
    by (vm_compute; reflexivity).
  replace (String.eqb "channels_first" "channels_first") with true
    by (vm_compute; reflexivity).
  cbn [orb negb].
  destruct (Nat.ltb_spec len_src 128); [lia|]. cbn [Nat.eqb].
  replace (128 / 2 + 1)%nat with 65%nat by (vm_compute; reflexivity).
  replace (len_src + 64 - 1)%nat with (len_src + 63)%nat by lia.
  reflexivity.
Qed.

Lemma assemble_model_inv {A : Type} (src : ndarray A) specs m :
  assemble_model src specs = Ok m ->
  exists x1 x2 x3,
    x1 = KCall (Spectrogram 128 64 (shape src) true "static_stft"
                  "channels_first") (KInput (shape src) "stft")
    /\ is_ok (kshape x1) = true
    /\ foldM (fun x arch_layer => call (conv_of arch_layer) x) specs x1 = Ok x2
    /\ x3 = KCall (Dense 512 None None) x2
    /\ m = mkModel (KInput (shape src) "stft")
             (KCall (Dense 368 (Some "sigmoid") (Some "predictions")) x3)
    /\ is_ok (kshape (outputs m)) = true.
Proof.
  unfold assemble_model. intros H.
  inv_bind H. inv_bind H. inv_bind H. inv_bind H. injection H as <-.
  apply call_inv in Ha as (-> & ? & ? & _ & _ & H1).
  apply call_inv in Ha1 as (-> & ? & ? & _ & _ & _).
  apply call_inv in Ha2 as (-> & ? & ? & _ & _ & H3).
  eexists _, _, _. repeat split; try eassumption.
  - rewrite H1. reflexivity.
  - cbn [outputs]. rewrite H3. reflexivity.
Qed.

Lemma is_ok_true {A : Type} (r : result A) :
  is_ok r = true -> exists a, r = Ok a.
Proof. destruct r; [eauto | discriminate]. Qed.

(** The source of an assembled model has two axes and at least 128
    samples, and the spectrogram is 65 by [ceil(len_src / 64)]. *)
Lemma assemble_model_source {A : Type} (src : ndarray A) specs m :
  assemble_model src specs = Ok m ->
  exists n_ch len_src,
    shape src = [n_ch; len_src]
    /\ (128 <= len_src)%nat
    /\ kshape (KCall (Spectrogram 128 64 (shape src) true "static_stft"
                        "channels_first") (KInput (shape src) "stft"))
       = Ok [n_ch; 65%nat; ((len_src + 63) / 64)%nat].
Proof.
  intros H. apply assemble_model_inv in H
    as (x1 & x2 & x3 & -> & H1 & _).
  apply is_ok_true in H1 as (s1 & H1).
  destruct (kshape_KCall_inv _ _ _ H1) as (s0 & Hs0 & Hsp).
  cbn in Hs0. injection Hs0 as <-.
  apply spectrogram_shape_inv in Hsp as (n_ch & len_src & Hsrc & Hlen & ->).
  exists n_ch, len_src. rewrite <- Hsrc. auto.
Qed.

Lemma assemble_model_shape {A : Type} (src : ndarray A) specs m :
  assemble_model src specs = Ok m ->
  exists c h, kshape (outputs m) = Ok [c; h; 368%nat].
Proof.
  intros H.
  destruct (assemble_model_source _ _ _ H) as (n_ch & len_src & _ & _ & H1).
  apply assemble_model_inv in H
    as (x1 & x2 & x3 & -> & _ & Hf & -> & -> & Hout).
  destruct (foldM_call_shape _ _ _ _ _ _ Hf H1) as (c' & h' & w' & Hy).
  apply is_ok_true in Hout as (s & Hout). cbn [outputs] in *.
  destruct (kshape_KCall_inv _ _ _ Hout) as (s3 & H3 & Hd2). rewrite Hout.
  destruct (kshape_KCall_inv _ _ _ H3) as (s2 & H2 & Hd1).
  rewrite Hy in H2. injection H2 as <-.
  apply dense_shape_inv in Hd1 as (_ & -> & _).
  apply dense_shape_inv in Hd2 as (_ & -> & _).
  exists c', h'. reflexivity.
Qed.

Lemma conv_shape_fits (spec : ArchLayer) (c h w : nat) :
  (0 < filters spec)%nat ->
  (0 < fst (window_size spec) <= h)%nat ->
  (0 < snd (window_size spec) <= w)%nat ->
  (0 < fst (strides spec))%nat ->
  (0 < snd (strides spec))%nat ->
  is_ok (activations_get (Some (activation spec))) = true ->
  layer_shape (conv_of spec) [c; h; w]
  = Ok [filters spec;
        ((h - fst (window_size spec)) / fst (strides spec) + 1)%nat;
        ((w - snd (window_size spec)) / snd (strides spec) + 1)%nat].
Proof.
  intros Hf Hk1 Hk2 Hs1 Hs2 Ha. unfold conv_of, layer_shape.
  destruct (window_size spec) as [k1 k2], (strides spec) as [s1 s2].
  destruct (Nat.eqb_spec (filters spec) 0); [lia|].
  apply is_ok_true in Ha as (a & ->). cbn [fst snd mbind result_bind] in *.
  cbn [String.eqb Ascii.eqb Bool.eqb].
  rewrite conv_output_length_fits by assumption.
  rewrite conv_output_length_fits by assumption.
  reflexivity.
Qed.

Lemma call_ok (l : Layer) (x : KTensor) (s : list nat) :
  kshape (KCall l x) = Ok s -> call l x = Ok (KCall l x).
Proof. unfold call. intros ->. reflexivity. Qed.

Lemma kshape_KCall (l : Layer) (x : KTensor) (s s' : list nat) :
  kshape x = Ok s -> layer_shape l s = Ok s' -> kshape (KCall l x) = Ok s'.
Proof. intros Hx Hl. cbn [kshape]. rewrite Hx. exact Hl. Qed.

Lemma foldM_call_fits (specs : list ArchLayer) : forall x c h w,
  kshape x = Ok [c; h; w] ->
  Forall (fun spec => (0 < filters spec)%nat) specs ->
  fits specs h w ->
  exists y, foldM (fun x arch_layer => call (conv_of arch_layer) x) specs x = Ok y.
Proof.
  induction specs as [|spec specs IH]; intros x c h w Hx Hpos Hfit; cbn [foldM].
  - eauto.
  - inversion Hfit as [|? ? ? ? Hk1 Hk2 Hs1 Hs2 Ha Hrest]; subst.
    inversion Hpos as [|? ? Hf Hpos']; subst.
    pose proof (conv_shape_fits spec c h w Hf Hk1 Hk2 Hs1 Hs2 Ha) as Hl.
    pose proof (kshape_KCall _ _ _ _ Hx Hl) as Hk.
    rewrite (call_ok _ _ _ Hk). cbn [mbind result_bind].
    eapply IH; eauto.
Qed.

Lemma foldM_call_fits_inv (specs : list ArchLayer) : forall x y c h w,
  kshape x = Ok [c; h; w] ->
  foldM (fun x arch_layer => call (conv_of arch_layer) x) specs x = Ok y ->
  fits specs h w /\ Forall (fun spec => (0 < filters spec)%nat) specs.
Proof.
  induction specs as [|spec specs IH]; intros x y c h w Hx H; cbn [foldM] in H.
  - split; constructor.
  - inv_bind H. apply call_inv in Ha as (-> & s & s' & Hs & Hl & Hk).
    rewrite Hx in Hs. injection Hs as <-.
    apply conv_shape_fits_inv in Hl
      as (c0 & h0 & w0 & E & Hf & H1 & H2 & H3 & H4 & H5 & ->).
    injection E as <- <- <-.
    destruct (IH _ _ _ _ _ Hk H) as (Hfit & Hpos).
    split; constructor; assumption.
Qed.

Lemma dense_shape_ok (units : nat) (act name : option string) (s : list nat) :
  s <> [] ->
  is_ok (activations_get act) = true ->
  layer_shape (Dense units act name) s = Ok (removelast s ++ [units]).
Proof.
  intros Hs Ha. apply is_ok_true in Ha as (a & Ha).
  cbn [layer_shape]. rewrite Ha. cbn [mbind result_bind].
  destruct s; [contradiction | reflexivity].
Qed.

(** The code's convolution for a specification is the one the design
    document describes. *)
Lemma conv_of_described (spec : ArchLayer) :
  LayerNode (conv_of spec) = described_conv spec.
Proof. destruct spec. reflexivity. Qed.

Lemma assemble_model_ok {A : Type} (src : ndarray A) specs n_ch len_src :
  shape src = [n_ch; len_src] ->
  (128 <= len_src)%nat ->
  Forall (fun spec => (0 < filters spec)%nat) specs ->
  fits specs 65 ((len_src + 63) / 64) ->
  exists m, assemble_model src specs = Ok m.
Proof.
  intros Hsrc Hlen Hpos Hfit. unfold assemble_model. rewrite Hsrc.
  set (inp := KInput [n_ch; len_src] "stft").
  set (stft := Spectrogram 128 64 [n_ch; len_src] true "static_stft"
                 "channels_first").
  assert (H1 : kshape (KCall stft inp)
               = Ok [n_ch; 65%nat; ((len_src + 63) / 64)%nat]).
  { apply kshape_KCall with (s := [n_ch; len_src]); [reflexivity|].
    apply spectrogram_shape_ok. exact Hlen. }
  rewrite (call_ok _ _ _ H1). cbn [mbind result_bind].
  destruct (foldM_call_fits specs _ _ _ _ H1 Hpos Hfit) as (x2 & Hx2).
  rewrite Hx2. cbn [mbind result_bind].
  destruct (foldM_call_shape _ _ _ _ _ _ Hx2 H1) as (c & h & w & Hs2).
  assert (H3 : kshape (KCall (Dense 512 None None) x2)
               = Ok (removelast [c; h; w] ++ [512%nat])).
  { eapply kshape_KCall; [exact Hs2|].
    apply dense_shape_ok; [discriminate | reflexivity]. }
  rewrite (call_ok _ _ _ H3). cbn [mbind result_bind].
  assert (H4 : kshape (KCall (Dense 368 (Some "sigmoid") (Some "predictions"))
                         (KCall (Dense 512 None None) x2))
               = Ok (removelast (removelast [c; h; w] ++ [512%nat])
                     ++ [368%nat])).
  { eapply kshape_KCall; [exact H3|].
    apply dense_shape_ok; [discriminate | reflexivity]. }
  rewrite (call_ok _ _ _ H4). cbn [mbind result_bind]. eauto.
Qed.

(** C5.  Whenever [assemble_model] returns a model, its graph is the one
    the design document describes: the input placeholder shaped as the
    source, the trainable spectrogram layer, one channels-first convolution
    per specification in list order with that specification's filter
    count, kernel window, stride and activation, the 512-unit linear dense
    layer and the 368-unit sigmoid dense layer named "predictions".  It
    does return one for a source of at least one channel and at least 128
    samples when every filter count is positive and the specifications fit
    the 65-by-frames spectrogram. *)
Theorem assemble_model_graph {A : Type} (src : ndarray A)
  (arch_layers : list ArchLayer) :
  arch_layers <> [] ->
  (forall m, assemble_model src arch_layers = Ok m ->
     inputs m = KInput (shape src) "stft"
     /\ root (outputs m) = inputs m
     /\ nodes_of (outputs m) = described_graph (shape src) arch_layers)
  /\ (forall n_ch len_src,
        shape src = [n_ch; len_src] ->
        (1 <= n_ch)%nat ->
        (128 <= len_src)%nat ->
        Forall (fun spec => (0 < filters spec)%nat) arch_layers ->
        fits arch_layers 65 ((len_src + 63) / 64) ->
        exists m, assemble_model src arch_layers = Ok m).
Proof.
  intros _. split.
  - intros m H. apply assemble_model_inv in H
      as (x1 & x2 & x3 & -> & _ & Hf & -> & -> & _).
    apply foldM_call_nodes in Hf as [Hn Hr].
    cbn [inputs outputs root nodes_of]. rewrite Hr, Hn. cbn [root nodes_of].
    unfold described_graph. rewrite <- !app_assoc.
    rewrite (map_ext _ _ conv_of_described). auto.
  - intros n_ch len_src Hsrc _ Hlen Hpos Hfit.
    exact (assemble_model_ok src arch_layers n_ch len_src Hsrc Hlen Hpos Hfit).
Qed.

Lemma c1_fits : fits c1_layers 65 ((16384 + 63) / 64).
Proof.
  unfold c1_layers, c1, ArchLayer_default.
  constructor; cbn [window_size strides activation fst snd]; try lia.
  - split; [lia|]. vm_compute. lia.
  - reflexivity.
  - constructor.
Qed.

Lemma c1_filters : Forall (fun spec => (0 < filters spec)%nat) c1_layers.
Proof. repeat constructor. Qed.

Lemma script_model_assembled :
  assemble_model src0 c1_layers = Ok script_model.
Proof. vm_compute. reflexivity. Qed.

Lemma assemble_model_graph_witness :
  c1_layers <> []
  /\ assemble_model src0 c1_layers = Ok script_model
  /\ nodes_of (outputs script_model) = described_graph [1; 16384]%nat c1_layers.
Proof.
  split; [discriminate|]. split; [vm_compute; reflexivity|].
  apply (assemble_model_graph src0 c1_layers); [discriminate|].
  vm_compute. reflexivity.
Defined.

Lemma div_sub_lt (h k s : nat) :
  (0 < k <= h)%nat -> (0 < s)%nat -> ((h - k) / s + 1 <= h)%nat.
Proof.
  intros Hk Hs.
  assert ((h - k) / s <= h - k)%nat by (apply Nat.Div0.div_le_upper_bound; nia).
  lia.
Qed.

Lemma last_cons_default {A : Type} (l : list A) : forall a d,
  List.last (a :: l) d = List.last l a.
Proof.
  induction l as [|b l IH]; intros a d; [reflexivity|].
  change (List.last (a :: b :: l) d) with (List.last (b :: l) d).
  rewrite !IH. reflexivity.
Qed.

Lemma last_default_irrelevant {A : Type} (l : list A) (d d' : A) :
  l <> [] -> List.last l d = List.last l d'.
Proof.
  destruct l as [|a l]; [contradiction|]. intros _.
  rewrite !last_cons_default. reflexivity.
Qed.

Lemma last_Forall {A : Type} (P : A -> Prop) (l : list A) (d : A) :
  l <> [] -> Forall P l -> P (List.last l d).
Proof.
  induction l as [|a l IH]; [contradiction|]. intros _ H.
  inversion H as [|? ? Ha Hl]; subst.
  destruct l as [|b l]; [exact Ha|].
  change (List.last (a :: b :: l) d) with (List.last (b :: l) d).
  apply IH; [discriminate | exact Hl].
Qed.

(** The feature map after the convolution stack: the channel count is the
    filter count of the last stage, and the height neither grows nor
    vanishes. *)
Lemma foldM_call_dims (specs : list ArchLayer) : forall x y c h w,
  kshape x = Ok [c; h; w] ->
  (1 <= h)%nat ->
  foldM (fun x arch_layer => call (conv_of arch_layer) x) specs x = Ok y ->
  exists h' w',
    kshape y = Ok [List.last (map filters specs) c; h'; w']
    /\ (1 <= h' <= h)%nat.
Proof.
  induction specs as [|spec specs IH]; intros x y c h w Hx Hh H;
    cbn [foldM] in H.
  - injection H as <-. exists h, w. cbn. split; [exact Hx | lia].
  - inv_bind H. apply call_inv in Ha as (-> & s & s' & Hs & Hl & Hk).
    rewrite Hx in Hs. injection Hs as <-.
    apply conv_shape_fits_inv in Hl
      as (c0 & h0 & w0 & E & Hf & H1 & H2 & H3 & H4 & H5 & ->).
    injection E as <- <- <-.
    pose proof (div_sub_lt _ _ _ H1 H3).
    destruct (IH _ _ _ _ _ Hk ltac:(lia) H) as (h' & w' & Hy & ?).
    exists h', w'. split; [|lia].
    rewrite Hy. cbn [map]. rewrite last_cons_default. reflexivity.
Qed.

(** What [assemble_model] has checked when it returns a model. *)
Lemma assemble_model_fits {A : Type} (src : ndarray A) specs m n_ch len_src :
  assemble_model src specs = Ok m ->
  shape src = [n_ch; len_src] ->
  (128 <= len_src)%nat
  /\ Forall (fun spec => (0 < filters spec)%nat) specs
  /\ fits specs 65 ((len_src + 63) / 64).
Proof.
  intros H Hsrc.
  destruct (assemble_model_source _ _ _ H) as (n_ch' & len' & Hsrc' & Hlen & H1).
  rewrite Hsrc in Hsrc'. injection Hsrc' as <- <-.
  apply assemble_model_inv in H as (x1 & x2 & x3 & -> & _ & Hf & _).
  destruct (foldM_call_fits_inv _ _ _ _ _ _ H1 Hf) as (Hfit & Hpos).
  auto.
Qed.

Lemma assemble_model_dims {A : Type} (src : ndarray A) specs m n_ch len_src :
  assemble_model src specs = Ok m ->
  shape src = [n_ch; len_src] ->
  exists h,
    kshape (outputs m)
    = Ok [List.last (map filters specs) n_ch; h; 368%nat]
    /\ (1 <= h <= 65)%nat.
Proof.
  intros H Hsrc.
  destruct (assemble_model_source _ _ _ H) as (n_ch' & len' & Hsrc' & Hlen & H1).
  rewrite Hsrc in Hsrc'. injection Hsrc' as <- <-.
  apply assemble_model_inv in H
    as (x1 & x2 & x3 & -> & _ & Hf & -> & -> & Hout).
  destruct (foldM_call_dims _ _ _ _ _ _ H1 ltac:(lia) Hf)
    as (h & w & Hy & Hh).
  exists h. split; [|exact Hh]. cbn [outputs].
  apply kshape_KCall with (s := [List.last (map filters specs) n_ch; h; 512%nat]).
  - apply kshape_KCall
      with (s := [List.last (map filters specs) n_ch; h; w]); [exact Hy|].
    reflexivity.
  - reflexivity.
Qed.

(** ** The forward pass *)

Lemma sigmoid_range (x : R) : (0 <= sigmoid x <= 1)%R.
Proof.
  unfold sigmoid.
  assert (He : (0 < exp (- x))%R) by apply exp_pos.
  assert (Hd : (1 < 1 + exp (- x))%R) by lra.
  split.
  - left. apply Rinv_0_lt_compat. lra.
  - rewrite <- Rinv_1. left. apply Rinv_lt_contravar; lra.
Qed.

Lemma length_blocks {A : Type} (n w : nat) (d : list A) :
  length (blocks n w d) = n.
Proof. unfold blocks. rewrite length_map, length_seq. reflexivity. Qed.

Lemma length_activate (a : Activation) (row : list R) :
  length (activate a row) = length row.
Proof.
  destruct a; cbn [activate]; unfold softmax; rewrite ?length_map;
    reflexivity.
Qed.

Lemma length_dense_row a d units kernel bias row :
  length (dense_row a d units kernel bias row) = units.
Proof.
  unfold dense_row. rewrite length_activate, length_map, length_seq.
  reflexivity.
Qed.

Lemma length_concat_const {A : Type} (ls : list (list A)) (k : nat) :
  Forall (fun l => length l = k) ls -> length (concat ls) = (length ls * k)%nat.
Proof.
  induction 1 as [|l ls Hl _ IH]; simpl; [reflexivity|].
  rewrite length_app, Hl, IH. reflexivity.
Qed.

Lemma size_of_app (s t : list nat) :
  size_of (s ++ t) = (size_of s * size_of t)%nat.
Proof.
  induction s as [|n s IH]; simpl; [lia|]. rewrite IH. lia.
Qed.

Lemma length_dense_data a units kernel bias s d :
  length (dense_data a units kernel bias s d)
  = size_of (removelast s ++ [units]).
Proof.
  unfold dense_data.
  rewrite (length_concat_const _ units).
  - rewrite length_map, length_blocks, size_of_app. simpl. lia.
  - apply Forall_map, Forall_forall. intros row _. apply length_dense_row.
Qed.

Lemma dense_data_sigmoid_range units kernel bias s d :
  Forall (fun v => (0 <= v <= 1)%R) (dense_data Sigmoid units kernel bias s d).
Proof.
  unfold dense_data. apply Forall_concat, Forall_map, Forall_forall.
  intros row _. unfold dense_row. cbn [activate].
  apply Forall_map, Forall_forall. intros v _. apply sigmoid_range.
Qed.

Lemma mapM_result_Forall {A B : Type} (f : A -> result B) (P : B -> Prop)
  (l : list A) :
  Forall (fun a => exists b, f a = Ok b /\ P b) l ->
  exists bs, mapM f l = Ok bs /\ Forall P bs /\ length bs = length l.
Proof.
  induction 1 as [|a l (b & Hb & HP) _ (bs & Hbs & HPs & Hlen)].
  - exists []. repeat split. constructor.
  - exists (b :: bs). cbn. rewrite Hb. cbn. rewrite Hbs. cbn.
    repeat split; [constructor; assumption | congruence].
Qed.

Lemma input_shape_of_KCall (l : Layer) (t : KTensor) :
  input_shape_of (KCall l t) = input_shape_of t.
Proof. reflexivity. Qed.

Lemma apply_layer_ok (num : Numerics) (i : nat) (l : Layer) (x : ndarray R)
  (s : list nat) :
  layer_shape l (shape x) = Ok s ->
  exists y, apply_layer num i l x = Ok y /\ shape y = s.
Proof.
  intros Hl. unfold apply_layer. rewrite Hl. cbn [mbind result_bind].
  destruct l as [n_dft n_hop ish tk name layout | nf ks st act df | units act name].
  - eauto.
  - eauto.
  - apply dense_shape_inv in Hl as (_ & _ & Ha).
    apply is_ok_true in Ha as (a & ->). cbn [mbind result_bind]. eauto.
Qed.

Lemma forward_ok (num : Numerics) (t : KTensor) : forall (s : list nat) (x : ndarray R),
  kshape t = Ok s ->
  shape x = input_shape_of t ->
  exists y, forward num t x = Ok y /\ shape y = s.
Proof.
  induction t as [shp name | l arg IH]; intros s x Hs Hx.
  - cbn in *. injection Hs as <-. rewrite decide_True by assumption. eauto.
  - apply kshape_KCall_inv in Hs as (s0 & Harg & Hl).
    destruct (IH s0 x Harg Hx) as (y0 & Hy0 & Hsy0).
    cbn [forward]. rewrite Hy0. cbn [mbind result_bind].
    apply apply_layer_ok. rewrite Hsy0. exact Hl.
Qed.

Lemma forward_sigmoid_head (num : Numerics) (t : KTensor) (units : nat)
  (name : option string) (x y : ndarray R) :
  forward num (KCall (Dense units (Some "sigmoid") name) t) x = Ok y ->
  Forall (fun v => (0 <= v <= 1)%R) (data y)
  /\ length (data y) = size_of (shape y)
  /\ List.last (shape y) 0%nat = units.
Proof.
  cbn [forward]. intros H. inv_bind H. unfold apply_layer in H.
  inv_bind H. apply dense_shape_inv in Ha0 as (_ & -> & _).
  cbn in H. injection H as <-. cbn [data shape].
  split; [apply dense_data_sigmoid_range|].
  split; [apply length_dense_data|].
  apply last_last.
Qed.

Lemma assemble_model_input {A : Type} (src : ndarray A) specs m :
  assemble_model src specs = Ok m ->
  input_shape_of (outputs m) = shape src.
Proof.
  intros H. apply assemble_model_inv in H
    as (x1 & x2 & x3 & -> & _ & Hf & -> & -> & _).
  apply foldM_call_nodes in Hf as [_ Hr].
  unfold input_shape_of. cbn [outputs root]. rewrite Hr. reflexivity.
Qed.

Lemma batch_predict_assembled (num : Numerics) {A : Type} (src : ndarray A)
  specs m (x : ndarray R) (b : nat) :
  assemble_model src specs = Ok m ->
  shape x = b :: shape src ->
  (1 <= b)%nat ->
  exists c h ys,
    mapM (fun d => forward num (outputs m) (NDArray (shape src) d))
         (blocks b (size_of (shape src)) (data x)) = Ok ys
    /\ length ys = b
    /\ Forall (fun y => shape y = [c; h; 368%nat]
                        /\ Forall (fun v => (0 <= v <= 1)%R) (data y)
                        /\ length (data y) = size_of [c; h; 368%nat]) ys
    /\ batch_predict num m x
       = Ok (NDArray [b; c; h; 368%nat] (concat (map data ys))).
Proof.
  intros Hm Hx Hb.
  destruct (assemble_model_shape _ _ _ Hm) as (c & h & Hs).
  pose proof (assemble_model_input _ _ _ Hm) as Hin.
  exists c, h.
  destruct (mapM_result_Forall
    (fun d => forward num (outputs m) (NDArray (shape src) d))
    (fun y => shape y = [c; h; 368%nat]
              /\ Forall (fun v => (0 <= v <= 1)%R) (data y)
              /\ length (data y) = size_of [c; h; 368%nat])
    (blocks b (size_of (shape src)) (data x))) as (ys & Hys & HP & Hlen).
  { apply Forall_forall. intros d _.
    destruct (forward_ok num (outputs m) _ (NDArray (shape src) d) Hs)
      as (y & Hy & Hsy); [cbn [shape]; congruence|].
    exists y. split; [exact Hy|]. split; [exact Hsy|].
    apply assemble_model_inv in Hm
      as (x1 & x2 & x3 & _ & _ & _ & _ & -> & _). cbn [outputs] in Hy.
    apply forward_sigmoid_head in Hy as (H01 & Hl & _).
    rewrite Hsy in Hl. auto. }
  exists ys. rewrite length_blocks in Hlen.
  repeat split; try assumption.
  unfold batch_predict. rewrite Hx.
  destruct b as [|b']; [lia|].
  rewrite Hys. cbn [mbind result_bind].
  rewrite Hs. reflexivity.
Qed.

(** The batch a model built by [assemble_model] returns for [b >= 1]
    inputs: its shape, its size and the range of its values. *)
Lemma batch_predict_dims (num : Numerics) {A : Type} (src : ndarray A)
  specs m (x : ndarray R) (b n_ch len_src : nat) :
  assemble_model src specs = Ok m ->
  shape src = [n_ch; len_src] ->
  shape x = b :: shape src ->
  (1 <= b)%nat ->
  let c := List.last (map filters specs) n_ch in
  exists h out,
    batch_predict num m x = Ok out
    /\ shape out = [b; c; h; 368%nat]
    /\ (1 <= h <= 65)%nat
    /\ length (data out) = (b * c * h * 368)%nat
    /\ Forall (fun v => (0 <= v <= 1)%R) (data out).
Proof.
  intros Hm Hsrc Hx Hb c.
  destruct (assemble_model_dims src specs m n_ch len_src Hm Hsrc)
    as (h & Hk & Hh).
  fold c in Hk.
  destruct (batch_predict_assembled num src specs m x b Hm Hx Hb)
    as (c0 & h0 & ys & Hys & Hlen & HP & Hout).
  assert (Hc : c0 = c /\ h0 = h).
  { unfold batch_predict in Hout. rewrite Hx in Hout.
    destruct b as [|b']; [lia|].
    rewrite Hys, Hk in Hout.
    cbn [mbind result_bind] in Hout. injection Hout as -> ->. auto. }
  destruct Hc as [-> ->].
  exists h, (NDArray [b; c; h; 368%nat] (concat (map data ys))).
  split; [exact Hout|]. split; [reflexivity|]. split; [exact Hh|].
  cbn [data]. split.
  - rewrite (length_concat_const (map data ys) (c * (h * 368))%nat).
    + rewrite length_map, Hlen. lia.
    + apply Forall_fmap. eapply Forall_impl; [exact HP|].
      intros y (_ & _ & Hy). cbn [compose]. rewrite Hy.
      unfold size_of. cbn [fold_right]. lia.
  - apply Forall_concat, Forall_fmap.
    eapply Forall_impl; [exact HP|]. intros y (_ & Hy & _). exact Hy.
Qed.

(** C6.  For a non-empty list of specifications that [assemble_model]
    accepts, the forward pass of the model on a batch of [b >= 1] inputs
    shaped as the source succeeds.  The output has shape [b, c, h, 368]
    with [c >= 1] the filter count of the last specification and [h]
    between 1 and 65, so its last axis has 368 entries and it is not
    empty; every one of its [b * c * h * 368] values lies in the closed
    interval from 0 to 1. *)
Theorem assemble_model_output_range (num : Numerics) {A : Type}
  (src : ndarray A) (arch_layers : list ArchLayer) (m : Model)
  (x : ndarray R) (b : nat) :
  arch_layers <> [] ->
  assemble_model src arch_layers = Ok m ->
  shape x = b :: shape src ->
  (1 <= b)%nat ->
  let c := List.last (map filters arch_layers) 0%nat in
  exists y h,
    model_predict (compiled num m) x = Ok y
    /\ shape y = [b; c; h; 368%nat]
    /\ (1 <= c)%nat
    /\ (1 <= h <= 65)%nat
    /\ List.last (shape y) 0%nat = 368%nat
    /\ length (data y) = (b * c * h * 368)%nat
    /\ data y <> []
    /\ Forall (fun v => (0 <= v <= 1)%R) (data y).
Proof.
  intros Hne Hm Hx Hb c.
  destruct (assemble_model_source _ _ _ Hm) as (n_ch & len_src & Hsrc & _ & _).
  destruct (assemble_model_fits _ _ _ _ _ Hm Hsrc) as (_ & Hpos & _).
  destruct (batch_predict_dims num src arch_layers m x b n_ch len_src
              Hm Hsrc Hx Hb) as (h & y & Hy & Hsy & Hh & Hlen & H01).
  assert (Hmap : map filters arch_layers <> []).
  { destruct arch_layers; [contradiction | discriminate]. }
  rewrite (last_default_irrelevant _ n_ch 0%nat Hmap) in Hsy, Hlen.
  fold c in Hsy, Hlen.
  assert (Hc : (1 <= c)%nat).
  { apply (last_Forall (fun n => (1 <= n)%nat) _ 0%nat Hmap).
    apply Forall_fmap. exact Hpos. }
  exists y, h.
  split; [exact Hy|]. split; [exact Hsy|]. split; [exact Hc|].
  split; [exact Hh|]. split; [rewrite Hsy; reflexivity|].
  split; [exact Hlen|]. split; [|exact H01].
  intros Hnil. rewrite Hnil in Hlen. cbn [length] in Hlen. nia.
Qed.

Lemma assemble_model_output_range_witness :
  let c := List.last (map filters c1_layers) 0%nat in
  exists y h,
    model_predict (compiled zero_numerics script_model)
      (NDArray [2; 1; 16384]%nat []) = Ok y
    /\ shape y = [2%nat; c; h; 368%nat]
    /\ (1 <= c)%nat
    /\ (1 <= h <= 65)%nat
    /\ List.last (shape y) 0%nat = 368%nat
    /\ length (data y) = (2 * c * h * 368)%nat
    /\ data y <> []
    /\ Forall (fun v => (0 <= v <= 1)%R) (data y).
Proof.
  apply (assemble_model_output_range zero_numerics src0 c1_layers script_model
           (NDArray [2; 1; 16384]%nat []) 2).
  - discriminate.
  - vm_compute. reflexivity.
  - reflexivity.
  - lia.
Defined.

(** ** [predict] *)

Lemma norm_axis_zero (n : nat) : (0 < n)%nat -> norm_axis n 0 = Some 0%nat.
Proof.
  intros Hn. unfold norm_axis.
  destruct (Z.ltb_spec 0 (Z.of_nat n)); [reflexivity | lia].
Qed.

Lemma getitem_Int_zero {A : Type} (idx : list Index) (n : nat) (shp : list nat)
  (d : list A) :
  (0 < n)%nat ->
  getitem (Int 0 :: idx) (NDArray (n :: shp) d)
  = getitem idx (NDArray shp (take (size_of shp) d)).
Proof.
  intros Hn. unfold getitem.
  cbn [shape data getitem_shape getitem_data].
  rewrite (norm_axis_zero n Hn). reflexivity.
Qed.

Lemma getitem_rows_shape {A : Type} (c h w : nat) (d : list A) :
  (0 < w)%nat ->
  exists d', getitem [FullSlice; FullSlice; Int 0] (NDArray [c; h; w] d)
             = Ok (NDArray [c; h] d').
Proof.
  intros Hw. unfold getitem. cbn [shape data getitem_shape].
  rewrite (norm_axis_zero w Hw). cbn [mbind result_bind]. eauto.
Qed.

Lemma predict_unfold {A : Type} (model : KerasModel A) (x : ndarray A)
  (logam : PyVal) :
  predict model x logam
  = model_predict model x ≫= getitem [Int 0; FullSlice; FullSlice; Int 0].
Proof. reflexivity. Qed.

(** C7, amended.  [predict] does not look at the leading dimension: on a
    model built by [assemble_model] and a batch of [b >= 1] inputs it
    succeeds with a two-axis array, which is the one it returns for the
    batch made of the first input alone. *)
Theorem predict_accepts_any_batch (num : Numerics) {A : Type}
  (src : ndarray A) (arch_layers : list ArchLayer) (m : Model)
  (x : ndarray R) (b : nat) (logam : PyVal) :
  assemble_model src arch_layers = Ok m ->
  shape x = b :: shape src ->
  (1 <= b)%nat ->
  (exists y, predict (compiled num m) x logam = Ok y /\ ndim y = 2%nat)
  /\ predict (compiled num m) x logam
     = predict (compiled num m)
         (NDArray (1 :: shape src) (take (size_of (shape src)) (data x)))
         logam.
Proof.
  intros Hm Hx Hb.
  destruct (batch_predict_assembled num src arch_layers m x b Hm Hx Hb)
    as (c & h & ys & Hys & Hlen & HP & Hout).
  destruct (batch_predict_assembled num src arch_layers m
              (NDArray (1 :: shape src) (take (size_of (shape src)) (data x)))
              1 Hm eq_refl (le_n 1))
    as (c1 & h1 & ys1 & Hys1 & Hlen1 & HP1 & Hout1).
  rewrite !predict_unfold. cbn [compiled model_predict].
  rewrite Hout, Hout1. cbn [mbind result_bind].
  destruct b as [|b']; [lia|].
  unfold blocks in Hys, Hys1. cbn [seq map] in Hys, Hys1.
  rewrite Nat.mul_0_l, !drop_0 in *. cbn [data] in Hys1.
  rewrite take_take, Nat.min_id in Hys1.
  cbn in Hys, Hys1.
  destruct (forward num (outputs m)
      (NDArray (shape src) (take (size_of (shape src)) (data x))))
    as [y0|e] eqn:Hy0; [|discriminate].
  cbn in Hys, Hys1. injection Hys1 as <-.
  destruct (mapM _ _) as [rest|e] in Hys; [|discriminate].
  cbn in Hys. injection Hys as <-.
  apply Forall_cons in HP as [(Hs0 & _ & Hl0) _].
  apply Forall_cons in HP1 as [(Hs1 & _ & _) _].
  assert (c1 = c /\ h1 = h) as [-> ->] by (split; congruence).
  rewrite !getitem_Int_zero by lia.
  cbn [map concat].
  rewrite app_nil_r, take_app_length', take_ge by lia.
  split; [|reflexivity].
  destruct (getitem_rows_shape c h 368 (data y0)) as (d' & ->); [lia|].
  eexists. split; reflexivity.
Qed.

(** The comparison [keras.backend.image_data_format == 'channels_first']
    is between a function object and a string. *)
Lemma is_channels_first_false :
  py_eq keras_backend_image_data_format (PyStr "channels_first") = false.
Proof. reflexivity. Qed.

(** C4.  With the backend configured channels-first, on a 1x2x2x2 output
    batch, [predict] returns the slice [0, :, :, 0] where the document
    promises the slice [0, 0]. *)
Theorem predict_channels_first_slice :
  let cfg := {| image_data_format := "channels_first" |} in
  let x := NDArray [1; 2; 2; 2]%nat [1; 2; 3; 4; 5; 6; 7; 8]%Z in
  predict (identity_model Z) x (PyBool false)
    = Ok (NDArray [2; 2]%nat [1; 3; 5; 7]%Z)
  /\ predict_by_layout cfg (identity_model Z) x
    = Ok (NDArray [2; 2]%nat [1; 2; 3; 4]%Z)
  /\ predict (identity_model Z) x (PyBool false)
     <> predict_by_layout cfg (identity_model Z) x.
Proof. repeat split. discriminate. Qed.

(** C10.  The result of [predict] does not depend on its third argument. *)
Theorem predict_independent_of_logam {A : Type} (model : KerasModel A)
  (x : ndarray A) (logam logam' : PyVal) :
  predict model x logam = predict model x logam'.
Proof. reflexivity. Qed.

(** C7, as stated, fails: a batch of two examples is accepted, and the
    first example's slice is returned. *)
Lemma predict_batch_of_two :
  let x := NDArray [2; 1; 2; 1]%nat [7; 8; 9; 10]%Z in
  hd 0%nat (shape x) <> 1%nat
  /\ predict (identity_model Z) x (PyBool false)
     = Ok (NDArray [1; 2]%nat [7; 8]%Z)
  /\ predict (identity_model Z) x (PyBool false) <> Raise ShapeError.
Proof. repeat split; discriminate. Qed.

Lemma predict_accepts_any_batch_witness :
  let x := NDArray [3; 1; 16384]%nat [] in
  (exists y, predict (compiled zero_numerics script_model) x PyNone = Ok y
             /\ ndim y = 2%nat)
  /\ predict (compiled zero_numerics script_model) x PyNone
     = predict (compiled zero_numerics script_model)
         (NDArray (1 :: shape src0) (take (size_of (shape src0)) (data x)))
         PyNone.
Proof.
  apply (predict_accepts_any_batch zero_numerics src0 c1_layers script_model
           (NDArray [3; 1; 16384]%nat []) 3 PyNone).
  - vm_compute. reflexivity.
  - reflexivity.
  - lia.
Defined.

(** ** [fit] *)

Lemma run_epochs_S (T : Trainer) (e : nat) (w : weights T)
  (train val : list (example T * target T)) (bs : nat) :
  run_epochs T (S e) w train val bs
  = let w1 := fst (train_epoch T w (minibatches bs train)) in
    (fst (run_epochs T e w1 train val bs),
     mkEntry (snd (train_epoch T w (minibatches bs train))) (evaluate T w1 val)
     :: snd (run_epochs T e w1 train val bs)).
Proof.
  cbn [run_epochs].
  destruct (train_epoch T w (minibatches bs train)) as [w1 l].
  cbn [fst snd].
  destruct (run_epochs T e w1 train val bs) as [w2 h]. reflexivity.
Qed.

Lemma weights_after_S (T : Trainer) (k : nat) (w : weights T)
  (train val : list (example T * target T)) (bs : nat) :
  weights_after T (S k) w train val bs
  = weights_after T k (fst (train_epoch T w (minibatches bs train)))
      train val bs.
Proof. unfold weights_after. rewrite run_epochs_S. reflexivity. Qed.

Lemma length_run_epochs (T : Trainer) (e : nat) : forall (w : weights T)
  (train val : list (example T * target T)) (bs : nat),
  length (snd (run_epochs T e w train val bs)) = e.
Proof.
  induction e as [|e IH]; intros w train val bs; [reflexivity|].
  rewrite run_epochs_S. cbn [snd length]. rewrite IH. reflexivity.
Qed.

Lemma run_epochs_lookup (T : Trainer) (e : nat) : forall (w : weights T)
  (train val : list (example T * target T)) (bs i : nat),
  (i < e)%nat ->
  snd (run_epochs T e w train val bs) !! i
  = Some (mkEntry
            (snd (train_epoch T (weights_after T i w train val bs)
                    (minibatches bs train)))
            (evaluate T (weights_after T (S i) w train val bs) val)).
Proof.
  induction e as [|e IH]; intros w train val bs i Hi; [lia|].
  rewrite run_epochs_S. cbn [snd].
  destruct i as [|i].
  - cbn. rewrite weights_after_S. reflexivity.
  - cbn [lookup list_lookup]. rewrite IH by lia.
    rewrite !(weights_after_S T _ w). reflexivity.
Qed.

Lemma model_fit_ok (T : Trainer) (w : weights T)
  (x : list (example T)) (y : list (target T))
  (x_val : list (example T)) (y_val : list (target T)) (bs epochs : nat) :
  length x = length y ->
  length x_val = length y_val ->
  (0 < length x_val)%nat ->
  (0 < bs)%nat ->
  model_fit T w x y bs epochs (x_val, y_val)
  = Ok (run_epochs T epochs w (zip x y) (zip x_val y_val) bs).
Proof.
  intros Hxy Hval Hne Hbs. unfold model_fit.
  rewrite Hxy, Hval, !Nat.eqb_refl. cbn [negb orb].
  rewrite Hval in Hne.
  destruct (Nat.eqb_spec (length y_val) 0); [lia|].
  rewrite andb_false_r. reflexivity.
Qed.

(** C1, as stated, fails: after one epoch [fit] hands back the model and
    nothing else. *)
Lemma fit_returns_no_history :
  let r := snd (fit counting_trainer 0%nat [1; 2]%nat [1; 2]%nat
                  [3]%nat [3]%nat 16 1) in
  r = Ok (ObjModel (1%nat : weights counting_trainer))
  /\ ~ exists m h, r = Ok (ObjTuple [ObjModel m; ObjHistory h]).
Proof.
  split; [reflexivity|]. intros (m & h & H). discriminate H.
Qed.

(** C1, amended.  For an epoch count [E > 0] on well-formed data, [fit]
    returns the mutated model alone; the history the engine accumulated has
    exactly [E] entries, the [i]-th holding the training loss of epoch [i]
    and the validation loss after it, and is only passed to the logger. *)
Theorem fit_returns_model_logs_history (T : Trainer) (model : weights T)
  (x_train : list (example T)) (y_train : list (target T))
  (x_val : list (example T)) (y_val : list (target T))
  (batch_size epochs : nat) :
  (0 < epochs)%nat ->
  length x_train = length y_train ->
  length x_val = length y_val ->
  (0 < length x_val)%nat ->
  (0 < batch_size)%nat ->
  let train := zip x_train y_train in
  let val := zip x_val y_val in
  exists history,
    fit T model x_train y_train x_val y_val batch_size epochs
    = ([Info "# Fit model on training data" [];
        Info (newline ++ "history dict:")%string [ObjHistory history]],
       Ok (ObjModel (weights_after T epochs model train val batch_size)))
    /\ length history = epochs
    /\ forall i, (i < epochs)%nat ->
         history !! i
         = Some (mkEntry
                   (snd (train_epoch T
                           (weights_after T i model train val batch_size)
                           (minibatches batch_size train)))
                   (evaluate T
                      (weights_after T (S i) model train val batch_size)
                      val)).
Proof.
  intros _ Hxy Hval Hne Hbs train val.
  exists (snd (run_epochs T epochs model train val batch_size)).
  split; [|split].
  - unfold fit. rewrite model_fit_ok by assumption.
    fold train val. unfold weights_after.
    destruct (run_epochs T epochs model train val batch_size) as [w h].
    reflexivity.
  - apply length_run_epochs.
  - intros i Hi. apply run_epochs_lookup. exact Hi.
Qed.

Lemma fit_returns_model_logs_history_witness :
  exists history,
    fit counting_trainer 0%nat [1; 2; 3]%nat [4; 5; 6]%nat [7]%nat [8]%nat 2 3
    = ([Info "# Fit model on training data" [];
        Info (newline ++ "history dict:")%string [ObjHistory history]],
       Ok (ObjModel (6%nat : weights counting_trainer)))
    /\ length history = 3%nat.
Proof.
  destruct (fit_returns_model_logs_history counting_trainer 0%nat
              [1; 2; 3]%nat [4; 5; 6]%nat [7]%nat [8]%nat 2 3)
    as (history & Hfit & Hlen & _); cbn; try lia.
  exists history. split; [exact Hfit | exact Hlen].
Defined.

(** ** [input_raw_audio] *)


Lemma read_frames_nonneg {S : Type} (k : Z) (l : list S) :
  (0 <= k)%Z -> read_frames k l = take (Z.to_nat k) l.
Proof.
  intros Hk. unfold read_frames.
  destruct (Z.ltb_spec k 0); [lia | reflexivity].
Qed.


Lemma librosa_load_duration {S : Type} (fs : gmap string (AudioFile S))
  (c : Codec S) (path : string) (f : AudioFile S) (sr : option Z)
  (duration : PyNum) (k : Z) :
  fs !! path = Some f ->
  int_of_product duration (samplerate f) = Ok k ->
  (0 <= k)%Z ->
  librosa_load fs c path sr (Some duration)
  = match sr with
    | None => Ok (take (Z.to_nat k) (frames f), samplerate f)
    | Some sr =>
        y ← resample c (take (Z.to_nat k) (frames f)) (samplerate f) sr;
        Ok (y, sr)
    end.
Proof.
  intros Hf Hk Hk0. unfold librosa_load. rewrite Hf, Hk.
  cbn [mbind result_bind]. rewrite (read_frames_nonneg k _ Hk0). reflexivity.
Qed.

Lemma input_raw_audio_load {S : Type} (fs : gmap string (AudioFile S))
  (c : Codec S) (path : string) (sr : option Z) (duration : PyNum) :
  input_raw_audio fs c path sr duration
  = librosa_load fs c path sr (Some duration).
Proof.
  unfold input_raw_audio.
  destruct (librosa_load fs c path sr (Some duration)) as [[y r]|e];
    reflexivity.
Qed.

Lemma resample_same_rate {S : Type} (c : Codec S) (y : list S) (n : Z) :
  resample c y n n = Ok y.
Proof. unfold resample. rewrite Z.eqb_refl. reflexivity. Qed.





(** ** [stft_to_audio] *)

Lemma griffinlim_angles {M C W G : Type} (E : GriffinLim M C W G) (S : M)
  (n_iter : nat) (rng : G) :
  griffinlim E S n_iter rng
  = (istft_scaled E S
       (fst (Nat.iter n_iter (griffinlim_round E S)
               (fst (random_angles E rng S), zero_spectrum E))),
     snd (random_angles E rng S)).
Proof.
  unfold griffinlim. destruct (random_angles E rng S) as [angles rng'].
  cbn [fst snd].
  destruct (Nat.iter n_iter (griffinlim_round E S) (angles, zero_spectrum E)).
  reflexivity.
Qed.

(** C8, as stated, fails: on the sign engine two calls on the same
    magnitudes, one after the other, return different waveforms, since the
    second draws its angles from the generator as the first left it. *)
Lemma stft_to_audio_two_runs_differ :
  stft_to_audio_twice sign_engine [3; 1; 2]%Z 0%Z
  = ([3; 1; 2]%Z, [-3; 1; 2]%Z)
  /\ fst (stft_to_audio_twice sign_engine [3; 1; 2]%Z 0%Z)
     <> snd (stft_to_audio_twice sign_engine [3; 1; 2]%Z 0%Z)
  /\ ~ deterministic sign_engine.
Proof.
  split; [vm_compute; reflexivity|]. split; [vm_compute; discriminate|].
  intros H. specialize (H [3; 1; 2]%Z 0%Z 1%Z). vm_compute in H.
  discriminate H.
Qed.

(** C8, amended.  [stft_to_audio] runs 32 rounds and is deterministic in
    the magnitude array together with the state of the global random
    generator: the waveform depends on the generator only through the
    angles drawn, so two runs that draw the same angles return the same
    waveform; each run advances the generator by that one draw, and the
    second of two successive calls is the call made from the state the
    first one left. *)
Theorem stft_to_audio_deterministic_given_state {M C W G : Type}
  (E : GriffinLim M C W G) (S : M) (rng rng' : G) :
  fst (random_angles E rng S) = fst (random_angles E rng' S) ->
  fst (stft_to_audio E S rng) = fst (stft_to_audio E S rng')
  /\ stft_to_audio E S rng = griffinlim E S 32 rng
  /\ snd (stft_to_audio E S rng) = snd (random_angles E rng S)
  /\ stft_to_audio_twice E S rng
     = (fst (stft_to_audio E S rng),
        fst (stft_to_audio E S (snd (stft_to_audio E S rng)))).
Proof.
  intros Hdraw. unfold stft_to_audio_twice, stft_to_audio.
  rewrite !griffinlim_angles. cbn [fst snd]. rewrite Hdraw.
  repeat split.
Qed.

Lemma stft_to_audio_deterministic_given_state_witness :
  fst (stft_to_audio sign_engine [3; 1; 2]%Z 0%Z)
  = fst (stft_to_audio sign_engine [3; 1; 2]%Z 8%Z).
Proof.
  apply (stft_to_audio_deterministic_given_state sign_engine [3; 1; 2]%Z
           0%Z 8%Z).
  vm_compute. reflexivity.
Defined.

(** ** The script body *)

(** C9.  With the variable set to a false value the gated block still
    runs: any non-empty string is true. *)
Theorem experimentation_false_still_runs :
  flag_value "False" = Some false
  /\ flag_value "0" = Some false
  /\ experimentation_block {[ "EXPERIMENTATION" := "False" ]}
     = [SaveModel "models/saved/dx7_sample.h5"; PredictSample;
        WriteAudio "audio/outputs/new_audio.wav"]
  /\ experimentation_block {[ "EXPERIMENTATION" := "0" ]}
     = [SaveModel "models/saved/dx7_sample.h5"; PredictSample;
        WriteAudio "audio/outputs/new_audio.wav"].
Proof. repeat split; vm_compute; reflexivity. Qed.

(** ** The validation split *)


Lemma slice_index_zero (n : nat) : slice_index n 0 = 0%nat.
Proof. unfold slice_index. cbn. lia. Qed.







(** X2.  When [int(n_samples * fraction)] is zero the bound [-slice] is
    [-0], that is [0]: [x[-0:]] is the whole sequence and [x[:-0]] is empty,
    so every example goes to validation and none is left for training. *)
Theorem reserve_validation_empty_training {X Y : Type} (n_samples : Z)
  (fraction : Q) (x : list X) (y : list Y) :
  py_int (inject_Z n_samples * fraction) = 0%Z ->
  reserve_validation n_samples fraction x y = ([], [], x, y).
Proof.
  intros Hs. unfold reserve_validation. rewrite Hs. cbn [Z.opp].
  unfold slice_until, slice_from. rewrite !slice_index_zero.
  rewrite !take_0, !drop_0. reflexivity.
Qed.

Lemma reserve_validation_empty_training_witness :
  reserve_validation 4 (1 # 5) [0; 1; 2; 3]%nat [true; false; true; false]
  = ([], [], [0; 1; 2; 3]%nat, [true; false; true; false]).
Proof.
  apply (reserve_validation_empty_training 4 (1 # 5)). vm_compute. reflexivity.
Defined.

(** X3.  The split cuts inputs and targets at the same place: pairing
    each training input with its target, then each validation input with
    its target, gives the pairs of the original data in their order. *)
Theorem reserve_validation_keeps_pairs {X Y : Type} (n_samples : Z)
  (fraction : Q) (x : list X) (y : list Y) :
  length x = length y ->
  let '(x_train, y_train, x_val, y_val) :=
    reserve_validation n_samples fraction x y in
  zip x_train y_train ++ zip x_val y_val = zip x y.
Proof.
  intros Hxy. unfold reserve_validation, slice_until, slice_from.
  rewrite <- Hxy.
  rewrite <- zip_with_take, <- zip_with_drop. apply take_drop.
Qed.

Lemma reserve_validation_keeps_pairs_witness :
  let '(x_train, y_train, x_val, y_val) :=
    reserve_validation 5 (2 # 5) [1; 2; 3; 4; 5]%nat [6; 7; 8; 9; 10]%nat in
  zip x_train y_train ++ zip x_val y_val
  = zip [1; 2; 3; 4; 5]%nat [6; 7; 8; 9; 10]%nat.
Proof.
  apply (reserve_validation_keeps_pairs 5 (2 # 5)
           [1; 2; 3; 4; 5]%nat [6; 7; 8; 9; 10]%nat).
  reflexivity.
Defined.

(** ** The environment gate *)

(** X4.  The block under [if os.getenv('EXPERIMENTATION', True)] is
    skipped exactly when the variable is set to the empty string; unset, or
    set to any other text, the model is saved, a sample predicted and the
    audio written. *)
Theorem experimentation_block_skipped_iff (environ : gmap string string) :
  experimentation_block environ = []
  <-> environ !! "EXPERIMENTATION" = Some EmptyString.
Proof.
  unfold experimentation_block, os_getenv.
  destruct (environ !! "EXPERIMENTATION") as [v|] eqn:Hv; cbn.
  - destruct v as [|a v]; cbn; split; intros H; try reflexivity;
      try discriminate H.
  - split; intros H; discriminate H.
Qed.

(** ** More on [input_raw_audio] *)

(** X6.  With [sr = None] the file's own rate is kept: when
    [k = int(duration * rate)], computed as Python computes it, is not
    negative, the result is the first [k] frames of the file, unresampled,
    together with the native rate; asking for the native rate explicitly
    gives the same result, whatever the resampling kernel.  At a duration
    of [0.29] on a 100 Hz file the binary64 product is just below 29 and
    28 frames are read. *)
Theorem input_raw_audio_native_rate {S : Type}
  (fs : gmap string (AudioFile S)) (c c' : Codec S) (path : string)
  (f : AudioFile S) (duration : PyNum) (k : Z) :
  fs !! path = Some f ->
  int_of_product duration (samplerate f) = Ok k ->
  (0 <= k)%Z ->
  input_raw_audio fs c path None duration
  = Ok (take (Z.to_nat k) (frames f), samplerate f)
  /\ input_raw_audio fs c path None duration
     = input_raw_audio fs c' path (Some (samplerate f)) duration.
Proof.
  intros Hf Hk Hk0.
  rewrite !input_raw_audio_load.
  rewrite (librosa_load_duration fs c path f None duration k Hf Hk Hk0).
  rewrite (librosa_load_duration fs c' path f (Some (samplerate f)) duration k
             Hf Hk Hk0).
  rewrite resample_same_rate. split; reflexivity.
Qed.

Lemma input_raw_audio_native_rate_witness :
  input_raw_audio clip_fs hold_codec "clip.wav" None
    (NumFloat (float_literal 29 100))
  = Ok (take 28 (map Z.of_nat (seq 0 100)), 100%Z)
  /\ input_raw_audio clip_fs hold_codec "clip.wav" None
       (NumFloat (float_literal 29 100))
     = input_raw_audio clip_fs hold_codec "clip.wav" (Some 100%Z)
         (NumFloat (float_literal 29 100)).
Proof.
  apply (input_raw_audio_native_rate clip_fs hold_codec hold_codec "clip.wav"
           (mkAudioFile 100%Z (map Z.of_nat (seq 0 100)))
           (NumFloat (float_literal 29 100)) 28%Z).
  - vm_compute. reflexivity.
  - vm_compute. reflexivity.
  - discriminate.
Defined.

Lemma input_raw_audio_default_native {S : Type}
  (fs : gmap string (AudioFile S)) (c : Codec S) (path : string)
  (f : AudioFile S) :
  fs !! path = Some f ->
  samplerate f = 16384%Z ->
  input_raw_audio_default fs c path = Ok (take 16384 (frames f), 16384%Z).
Proof.
  intros Hf Hsr. unfold input_raw_audio_default.
  rewrite input_raw_audio_load.
  rewrite (librosa_load_duration fs c path f (Some 16384%Z)
             (NumFloat (float_round 1)) 16384%Z Hf).
  - rewrite Hsr, resample_same_rate. cbn [mbind result_bind].
    replace (Z.to_nat 16384) with 16384%nat by (vm_compute; reflexivity).
    reflexivity.
  - rewrite Hsr. vm_compute. reflexivity.
  - discriminate.
Qed.

(** X7.  With the keyword defaults ([sr = 16384], [duration = 1.]), a
    file recorded at 16384 Hz holding at least one second of audio loads as
    its first 16384 frames. *)
Theorem input_raw_audio_default_one_second {S : Type}
  (fs : gmap string (AudioFile S)) (c : Codec S) (path : string)
  (f : AudioFile S) :
  fs !! path = Some f ->
  samplerate f = 16384%Z ->
  (16384 <= length (frames f))%nat ->
  exists y,
    input_raw_audio_default fs c path = Ok (y, 16384%Z)
    /\ y = take 16384 (frames f)
    /\ length y = 16384%nat.
Proof.
  intros Hf Hsr Hlen.
  rewrite (input_raw_audio_default_native fs c path f Hf Hsr).
  eexists. split; [reflexivity|]. split; [reflexivity|].
  rewrite length_take. lia.
Qed.

Lemma input_raw_audio_default_one_second_witness :
  exists y,
    input_raw_audio_default tone_fs hold_codec "tone.wav" = Ok (y, 16384%Z)
    /\ y = take 16384 (repeat 0%Z 16384)
    /\ length y = 16384%nat.
Proof.
  apply (input_raw_audio_default_one_second tone_fs hold_codec "tone.wav"
           (mkAudioFile 16384%Z (repeat 0%Z 16384))).
  - vm_compute. reflexivity.
  - reflexivity.
  - apply Nat.leb_le. vm_compute. reflexivity.
Defined.

(** ** Indexing in [predict] *)

(** X8.  [predict] raises [IndexError] when the model's output has
    fewer than four axes, and when the output has four axes of which the
    first (batch) or the last has extent zero. *)
Theorem predict_index_error {A : Type} (model : KerasModel A)
  (x r : ndarray A) (logam : PyVal) :
  model_predict model x = Ok r ->
  (ndim r < 4)%nat
  \/ (exists b c h w, shape r = [b; c; h; w] /\ (b = 0%nat \/ w = 0%nat)) ->
  predict model x logam = Raise IndexError.
Proof.
  intros Hr Hbad. rewrite predict_unfold, Hr. cbn [mbind result_bind].
  unfold getitem.
  assert (Hs : getitem_shape [Int 0; FullSlice; FullSlice; Int 0] (shape r)
               = Raise IndexError); [|rewrite Hs; reflexivity].
  destruct Hbad as [Hrank | (b & c & h & w & -> & Hz)].
  - unfold ndim in Hrank.
    destruct (shape r) as [|b [|c [|h [|w rest]]]]; cbn in Hrank; try lia;
      cbn [getitem_shape];
      try match goal with
          | |- context [norm_axis ?n ?i] => destruct (norm_axis n i)
          end; reflexivity.
  - cbn [getitem_shape]. destruct Hz as [-> | ->].
    + reflexivity.
    + destruct (norm_axis b 0); reflexivity.
Qed.

Lemma predict_index_error_witness :
  predict (identity_model Z) (NDArray [2; 3]%nat [1; 2; 3; 4; 5; 6]%Z) PyNone
  = Raise IndexError.
Proof.
  apply (predict_index_error (identity_model Z)
           (NDArray [2; 3]%nat [1; 2; 3; 4; 5; 6]%Z)
           (NDArray [2; 3]%nat [1; 2; 3; 4; 5; 6]%Z)).
  - reflexivity.
  - left. cbn. lia.
Defined.

Lemma take_one_drop {A : Type} (l : list A) (k : nat) (a : A) :
  l !! k = Some a -> take 1 (drop k l) = [a].
Proof.
  revert k. induction l as [|b l IH]; intros k H; [discriminate|].
  destruct k as [|k].
  - injection H as ->. reflexivity.
  - rewrite skipn_cons. apply IH. exact H.
Qed.

(** The first element of each of [len] consecutive runs of [w]. *)
Lemma run_heads_lookup {A : Type} (w : nat) (blk : list A) (len : nat) :
  forall start,
  (1 <= w)%nat ->
  ((start + len) * w <= length blk)%nat ->
  let heads := concat (map (fun k => take 1 (drop 0 (take w (drop (k * w) blk))))
                           (seq start len)) in
  length heads = len
  /\ forall j, (j < len)%nat -> heads !! j = blk !! ((start + j) * w)%nat.
Proof.
  induction len as [|len IH]; intros start Hw Hlen heads.
  - split; [reflexivity | intros j Hj; lia].
  - subst heads. cbn [seq map concat].
    destruct (lookup_lt_is_Some_2 blk (start * w)) as (a & Ha); [nia|].
    rewrite drop_0.
    assert (H1 : take 1 (take w (drop (start * w) blk)) = [a]).
    { rewrite take_take, Nat.min_l by lia. apply take_one_drop. exact Ha. }
    rewrite H1.
    destruct (IH (S start) Hw) as (Hl & Hj); [lia|].
    split; [cbn; rewrite Hl; reflexivity|].
    intros [|j] Hlt.
    + rewrite Nat.add_0_r. cbn. symmetry. exact Ha.
    + cbn [app lookup list_lookup]. rewrite Hj by lia.
      f_equal. lia.
Qed.

Lemma lookup_concat_uniform {A : Type} (h : nat) (ls : list (list A)) :
  Forall (fun l => length l = h) ls ->
  forall i j, (j < h)%nat ->
  concat ls !! (i * h + j)%nat = ls !! i ≫= (fun l => l !! j).
Proof.
  induction 1 as [|l ls Hl _ IH]; intros i j Hj; [reflexivity|].
  destruct i as [|i]; cbn [concat].
  - cbn. rewrite lookup_app_l by lia. reflexivity.
  - rewrite lookup_app_r by (rewrite Hl; lia).
    replace (S i * h + j - length l)%nat with (i * h + j)%nat
      by (rewrite Hl; lia).
    rewrite IH by exact Hj. reflexivity.
Qed.

Lemma getitem_data_first {A : Type} (w : nat) (d : list A) :
  (1 <= w)%nat -> getitem_data [Int 0] [w] d = take 1 d.
Proof.
  intros Hw. cbn [getitem_data].
  rewrite norm_axis_zero by lia. cbn. rewrite drop_0. reflexivity.
Qed.

Lemma getitem_data_row_heads {A : Type} (h w : nat) (blk : list A) :
  (1 <= w)%nat ->
  (h * w <= length blk)%nat ->
  let heads := getitem_data [FullSlice; Int 0] [h; w] blk in
  length heads = h
  /\ forall j, (j < h)%nat -> heads !! j = blk !! (j * w)%nat.
Proof.
  intros Hw Hlen heads.
  assert (E : heads
    = concat (map (fun k => take 1 (drop 0 (take w (drop (k * w) blk))))
                  (seq 0 h))).
  { subst heads.
    change (getitem_data [FullSlice; Int 0] [h; w] blk)
      with (concat (map (getitem_data [Int 0] [w]) (blocks h (w * 1) blk))).
    unfold blocks. rewrite map_map.
    f_equal. apply map_ext. intros k.
    rewrite getitem_data_first by exact Hw.
    rewrite Nat.mul_1_r, drop_0. reflexivity. }
  rewrite E.
  destruct (run_heads_lookup w blk h 0%nat Hw) as (Hl & Hj); [cbn; lia|].
  split; [exact Hl|]. intros j Hlt. rewrite Hj by exact Hlt. reflexivity.
Qed.

Lemma getitem_first_of_last_axis {A : Type} (b c h w : nat) (d : list A) :
  (1 <= b)%nat -> (1 <= w)%nat ->
  length d = (b * c * h * w)%nat ->
  let y := getitem_data [Int 0; FullSlice; FullSlice; Int 0] [b; c; h; w] d in
  length y = (c * h)%nat
  /\ forall i j, (i < c)%nat -> (j < h)%nat ->
       y !! (i * h + j)%nat = d !! ((i * h + j) * w)%nat.
Proof.
  intros Hb Hw Hlen y.
  set (d0 := take (c * (h * w)) d).
  set (ls := map (getitem_data [FullSlice; Int 0] [h; w])
                 (blocks c (h * w) d0)).
  assert (Ey : y = concat ls).
  { subst y ls d0.
    change (getitem_data [Int 0; FullSlice; FullSlice; Int 0] [b; c; h; w] d)
      with (match norm_axis b 0 with
            | Some k =>
                concat (map (getitem_data [FullSlice; Int 0] [h; w])
                  (blocks c (h * (w * 1))
                     (take (c * (h * (w * 1))) (drop (k * (c * (h * (w * 1)))) d))))
            | None => []
            end).
    rewrite norm_axis_zero by lia.
    rewrite !Nat.mul_1_r.
    change (Z.to_nat 0 * _)%nat with 0%nat. rewrite drop_0. reflexivity. }
  assert (Hd0 : length d0 = (c * (h * w))%nat).
  { subst d0. rewrite length_take. nia. }
  assert (Hrow : forall i, (i < c)%nat ->
            ls !! i = Some (getitem_data [FullSlice; Int 0] [h; w]
                              (take (h * w) (drop (i * (h * w)) d0)))).
  { intros i Hi. subst ls. unfold blocks. rewrite map_map.
    rewrite list_lookup_fmap. rewrite lookup_seq_lt by exact Hi.
    reflexivity. }
  assert (Hblk : forall i, (i < c)%nat ->
            (h * w <= length (take (h * w) (drop (i * (h * w)) d0)))%nat).
  { intros i Hi. rewrite length_take, length_drop, Hd0. nia. }
  assert (Hall : Forall (fun l => length l = h) ls).
  { subst ls. unfold blocks. rewrite map_map. apply Forall_forall.
    intros l Hl. apply list_elem_of_fmap in Hl. destruct Hl as (k & -> & Hk).
    apply elem_of_seq in Hk.
    apply (getitem_data_row_heads h w _ Hw). apply Hblk. lia. }
  split.
  - rewrite Ey. rewrite (length_concat_const ls h Hall).
    subst ls. unfold blocks. rewrite !length_map, length_seq. reflexivity.
  - intros i j Hi Hj. rewrite Ey.
    rewrite (lookup_concat_uniform h ls Hall i j Hj).
    rewrite (Hrow i Hi). cbn [mbind option_bind].
    destruct (getitem_data_row_heads h w _ Hw (Hblk i Hi)) as (_ & Hh).
    rewrite (Hh j Hj).
    assert (H1 : (j * w < h * w)%nat) by nia.
    assert (H2 : (i * (h * w) + j * w < c * (h * w))%nat) by nia.
    rewrite lookup_take, decide_True by exact H1.
    rewrite lookup_drop. subst d0.
    rewrite lookup_take, decide_True by exact H2.
    f_equal. lia.
Qed.

Lemma predict_first_of_last_axis {A : Type} (model : KerasModel A) (x r : ndarray A)
  (logam : PyVal) (b c h w : nat) :
  model_predict model x = Ok r ->
  shape r = [b; c; h; w] ->
  (1 <= b)%nat -> (1 <= w)%nat ->
  length (data r) = (b * c * h * w)%nat ->
  exists y,
    predict model x logam = Ok y
    /\ shape y = [c; h]
    /\ length (data y) = (c * h)%nat
    /\ forall i j, (i < c)%nat -> (j < h)%nat ->
         data y !! (i * h + j)%nat = data r !! ((i * h + j) * w)%nat.
Proof.
  intros Hm Hs Hb Hw Hlen.
  exists (NDArray [c; h]
            (getitem_data [Int 0; FullSlice; FullSlice; Int 0] [b; c; h; w]
               (data r))).
  destruct (getitem_first_of_last_axis b c h w (data r) Hb Hw Hlen) as (Hl & He).
  split; [|split; [reflexivity | split; [exact Hl | exact He]]].
  unfold predict. rewrite Hm. cbn [mbind result_bind].
  change (py_eq keras_backend_image_data_format (PyStr "channels_first"))
    with false. cbn iota.
  unfold getitem. rewrite Hs. cbn [getitem_shape].
  rewrite !norm_axis_zero by lia. reflexivity.
Qed.

(** X9.  On a model output of shape [b, c, h, w] with [b >= 1] and
    [w >= 1], [predict] returns the [c] by [h] array whose entry [(i, j)] is
    the entry [(0, i, j, 0)] of the output: the first example, and the
    first position of the last axis. *)
Theorem predict_elements {A : Type} (model : KerasModel A) (x r : ndarray A)
  (logam : PyVal) (b c h w : nat) :
  model_predict model x = Ok r ->
  shape r = [b; c; h; w] ->
  (1 <= b)%nat -> (1 <= w)%nat ->
  length (data r) = (b * c * h * w)%nat ->
  exists y,
    predict model x logam = Ok y
    /\ shape y = [c; h]
    /\ length (data y) = (c * h)%nat
    /\ forall i j, (i < c)%nat -> (j < h)%nat ->
         data y !! (i * h + j)%nat = data r !! ((i * h + j) * w)%nat.
Proof. exact (predict_first_of_last_axis model x r logam b c h w). Qed.

Lemma predict_elements_witness :
  exists y,
    predict (identity_model Z) (NDArray [1; 2; 2; 2]%nat [1; 2; 3; 4; 5; 6; 7; 8]%Z) PyNone = Ok y
    /\ shape y = [2; 2]%nat
    /\ length (data y) = (2 * 2)%nat
    /\ forall i j, (i < 2)%nat -> (j < 2)%nat ->
         data y !! (i * 2 + j)%nat
         = [1; 2; 3; 4; 5; 6; 7; 8]%Z !! ((i * 2 + j) * 2)%nat.
Proof.
  apply (predict_elements (identity_model Z)
           (NDArray [1; 2; 2; 2]%nat [1; 2; 3; 4; 5; 6; 7; 8]%Z)
           (NDArray [1; 2; 2; 2]%nat [1; 2; 3; 4; 5; 6; 7; 8]%Z)
           PyNone 1 2 2 2); first [reflexivity | lia].
Defined.

(** ** Which architectures [assemble_model] accepts *)

Lemma assemble_model_accepts {A : Type} (src : ndarray A)
  (specs : list ArchLayer) (n_ch len_src : nat) :
  shape src = [n_ch; len_src] ->
  (exists m, assemble_model src specs = Ok m)
  <-> ((128 <= len_src)%nat
       /\ Forall (fun spec => (0 < filters spec)%nat) specs
       /\ fits specs 65 ((len_src + 63) / 64)).
Proof.
  intros Hsrc. split.
  - intros (m & Hm). exact (assemble_model_fits _ _ _ _ _ Hm Hsrc).
  - intros (Hlen & Hpos & Hfit).
    exact (assemble_model_ok _ _ _ _ Hsrc Hlen Hpos Hfit).
Qed.

(** X10.  For a source of shape [(n_ch, len_src)] with at least one
    channel, and activation names among those of [keras.activations],
    [assemble_model] returns a model exactly when the source has at least
    128 samples, every filter count is positive, and every stage's kernel
    and stride are positive with the kernel no larger than the feature map
    left by the stages before it, starting from the 65 by
    [ceil(len_src / 64)] spectrogram. *)
Theorem assemble_model_accepts_iff {A : Type} (src : ndarray A)
  (arch_layers : list ArchLayer) (n_ch len_src : nat) :
  shape src = [n_ch; len_src] ->
  (1 <= n_ch)%nat ->
  Forall (fun spec =>
            is_ok (activations_get (Some (activation spec))) = true)
         arch_layers ->
  (exists m, assemble_model src arch_layers = Ok m)
  <-> ((128 <= len_src)%nat
       /\ Forall (fun spec => (0 < filters spec)%nat) arch_layers
       /\ fits arch_layers 65 ((len_src + 63) / 64)).
Proof.
  intros Hsrc _ _. exact (assemble_model_accepts src arch_layers n_ch len_src Hsrc).
Qed.

Lemma assemble_model_accepts_iff_witness :
  (exists m, assemble_model src0 c1_layers = Ok m)
  <-> ((128 <= 16384)%nat
       /\ Forall (fun spec => (0 < filters spec)%nat) c1_layers
       /\ fits c1_layers 65 ((16384 + 63) / 64)).
Proof.
  apply (assemble_model_accepts_iff src0 c1_layers 1 16384).
  - reflexivity.
  - lia.
  - repeat constructor.
Defined.

(** X11.  The output of an assembled model keeps three axes per
    example: the filter count of the last stage (the channel count of the
    source when there is no stage), a height between 1 and 65, and the 368
    units of the last dense layer; nothing flattens the feature map. *)
Theorem assemble_model_output_dims {A : Type} (src : ndarray A)
  (arch_layers : list ArchLayer) (m : Model) (n_ch len_src : nat) :
  assemble_model src arch_layers = Ok m ->
  shape src = [n_ch; len_src] ->
  exists h,
    kshape (outputs m)
    = Ok [List.last (map filters arch_layers) n_ch; h; 368%nat]
    /\ (1 <= h <= 65)%nat.
Proof. exact (assemble_model_dims src arch_layers m n_ch len_src). Qed.

Lemma assemble_model_output_dims_witness :
  exists h,
    kshape (outputs script_model)
    = Ok [List.last (map filters c1_layers) 1%nat; h; 368%nat]
    /\ (1 <= h <= 65)%nat.
Proof.
  apply (assemble_model_output_dims src0 c1_layers script_model 1 16384).
  - vm_compute. reflexivity.
  - reflexivity.
Defined.

Lemma predict_assembled {A : Type} (num : Numerics) (src : ndarray A)
  (specs : list ArchLayer) (m : Model) (x : ndarray R)
  (b n_ch len_src : nat) (logam : PyVal) :
  assemble_model src specs = Ok m ->
  shape src = [n_ch; len_src] ->
  shape x = b :: shape src ->
  (1 <= b)%nat ->
  let c := List.last (map filters specs) n_ch in
  exists out y h,
    model_predict (compiled num m) x = Ok out
    /\ shape out = [b; c; h; 368%nat]
    /\ predict (compiled num m) x logam = Ok y
    /\ shape y = [c; h]
    /\ (1 <= h <= 65)%nat
    /\ Forall (fun v => (0 <= v <= 1)%R) (data y)
    /\ forall i j, (i < c)%nat -> (j < h)%nat ->
         data y !! (i * h + j)%nat = data out !! ((i * h + j) * 368)%nat.
Proof.
  intros Hm Hsrc Hx Hb c.
  destruct (batch_predict_dims num src specs m x b n_ch len_src Hm Hsrc Hx Hb)
    as (h & out & Hout & Hso & Hh & Hsize & Hrange).
  fold c in Hso, Hsize.
  destruct (predict_first_of_last_axis (compiled num m) x out logam
              b c h 368 Hout Hso Hb ltac:(lia) Hsize)
    as (y & Hy & Hsy & Hly & Hel).
  exists out, y, h.
  split; [exact Hout|]. split; [exact Hso|]. split; [exact Hy|].
  split; [exact Hsy|]. split; [exact Hh|]. split; [|exact Hel].
  apply Forall_lookup. intros k v Hkv.
  assert (Hklt : (k < c * h)%nat).
  { rewrite <- Hly. eapply lookup_lt_Some. exact Hkv. }
  assert (Hdiv : (k = k / h * h + k mod h)%nat).
  { rewrite (Nat.div_mod_eq k h) at 1. lia. }
  assert (Hi : (k / h < c)%nat) by (apply Nat.Div0.div_lt_upper_bound; lia).
  assert (Hj : (k mod h < h)%nat) by (apply Nat.mod_upper_bound; lia).
  pose proof (Hel _ _ Hi Hj) as He. rewrite <- Hdiv in He.
  rewrite He in Hkv.
  exact (proj1 (Forall_lookup _ _) Hrange _ _ Hkv).
Qed.

(** X12.  [predict] on a model built by [assemble_model], for a batch
    of [b >= 1] inputs: the model's output has shape [b, c, h, 368], and
    [predict] returns the [c] by [h] array that holds, for each position of
    the feature map of the first example, the first of the 368 output
    units; every value lies in [0, 1]. *)
Theorem predict_assembled_first_output {A : Type} (num : Numerics)
  (src : ndarray A) (arch_layers : list ArchLayer) (m : Model)
  (x : ndarray R) (b n_ch len_src : nat) (logam : PyVal) :
  assemble_model src arch_layers = Ok m ->
  shape src = [n_ch; len_src] ->
  shape x = b :: shape src ->
  (1 <= b)%nat ->
  let c := List.last (map filters arch_layers) n_ch in
  exists out y h,
    model_predict (compiled num m) x = Ok out
    /\ shape out = [b; c; h; 368%nat]
    /\ predict (compiled num m) x logam = Ok y
    /\ shape y = [c; h]
    /\ (1 <= h <= 65)%nat
    /\ Forall (fun v => (0 <= v <= 1)%R) (data y)
    /\ forall i j, (i < c)%nat -> (j < h)%nat ->
         data y !! (i * h + j)%nat = data out !! ((i * h + j) * 368)%nat.
Proof.
  exact (predict_assembled num src arch_layers m x b n_ch len_src logam).
Qed.

Lemma predict_assembled_first_output_witness :
  let x := NDArray [2; 1; 16384]%nat [] in
  let c := List.last (map filters c1_layers) 1%nat in
  exists out y h,
    model_predict (compiled zero_numerics script_model) x = Ok out
    /\ shape out = [2%nat; c; h; 368%nat]
    /\ predict (compiled zero_numerics script_model) x PyNone = Ok y
    /\ shape y = [c; h]
    /\ (1 <= h <= 65)%nat
    /\ Forall (fun v => (0 <= v <= 1)%R) (data y)
    /\ forall i j, (i < c)%nat -> (j < h)%nat ->
         data y !! (i * h + j)%nat = data out !! ((i * h + j) * 368)%nat.
Proof.
  apply (predict_assembled_first_output zero_numerics src0 c1_layers
           script_model (NDArray [2; 1; 16384]%nat []) 2 1 16384 PyNone).
  - vm_compute. reflexivity.
  - reflexivity.
  - reflexivity.
  - lia.
Defined.

(** ** The script: loading, then assembling *)

Lemma c1_fits_iff (w : nat) : fits c1_layers 65 w <-> (26 <= w)%nat.
Proof.
  unfold c1_layers, c1, ArchLayer_default. split.
  - intros H. inversion H as [|? ? ? ? Hk1 Hk2 Hs1 Hs2 Ha Hrest]; subst.
    cbn [window_size snd] in Hk2. lia.
  - intros Hw.
    constructor; cbn [window_size strides activation fst snd]; try lia.
    + reflexivity.
    + constructor.
Qed.

Lemma frames_ge_26 (len : nat) : (26 <= (len + 63) / 64 <-> 1601 <= len)%nat.
Proof.
  split; intros H.
  - destruct (Nat.le_gt_cases 1601 len) as [|Hlt]; [assumption|].
    assert ((len + 63) / 64 < 26)%nat
      by (apply Nat.Div0.div_lt_upper_bound; lia).
    lia.
  - apply Nat.div_le_lower_bound; lia.
Qed.

Lemma c1_accepts_iff {S : Type} (y : list S) :
  (exists m, assemble_model (expand_dims0 y) c1_layers = Ok m)
  <-> (1601 <= length y)%nat.
Proof.
  rewrite (assemble_model_accepts (expand_dims0 y) c1_layers 1 (length y)
             eq_refl).
  rewrite c1_fits_iff, frames_ge_26. split.
  - intros (_ & _ & H). exact H.
  - intros H. split; [lia|]. split; [exact c1_filters | exact H].
Qed.

(** X13.  The architecture of the script, one stage with a 13 by 26
    kernel, is accepted for a one-channel waveform exactly when the
    waveform has at least 1601 samples (26 spectrogram frames). *)
Theorem script_architecture_min_length {S : Type} (y : list S) :
  (exists m, assemble_model (expand_dims0 y) c1_layers = Ok m)
  <-> (1601 <= length y)%nat.
Proof. exact (c1_accepts_iff y). Qed.

(** X14.  Loading then assembling, as the script does: for a file
    recorded at 16384 Hz the default load returns the first second of the
    file, or the whole file when it is shorter, and the script's model can
    be assembled on it exactly when the file holds at least 1601 frames. *)
Theorem script_load_then_assemble {S : Type}
  (fs : gmap string (AudioFile S)) (c : Codec S) (path : string)
  (f : AudioFile S) :
  fs !! path = Some f ->
  samplerate f = 16384%Z ->
  exists y_audio,
    input_raw_audio_default fs c path = Ok (y_audio, 16384%Z)
    /\ length y_audio = Nat.min 16384 (length (frames f))
    /\ ((exists m, assemble_model (expand_dims0 y_audio) c1_layers = Ok m)
        <-> (1601 <= length (frames f))%nat).
Proof.
  intros Hf Hsr.
  exists (take 16384 (frames f)).
  split; [exact (input_raw_audio_default_native fs c path f Hf Hsr)|].
  split; [apply length_take|].
  rewrite c1_accepts_iff, length_take.
  assert (Hn : 16384%nat = Z.to_nat 16384) by (vm_compute; reflexivity).
  rewrite Hn. lia.
Qed.

Lemma script_load_then_assemble_witness :
  exists y_audio,
    input_raw_audio_default tone_fs hold_codec "tone.wav"
    = Ok (y_audio, 16384%Z)
    /\ length y_audio = Nat.min 16384 (length (repeat 0%Z 16384))
    /\ ((exists m, assemble_model (expand_dims0 y_audio) c1_layers = Ok m)
        <-> (1601 <= length (repeat 0%Z 16384))%nat).
Proof.
  apply (script_load_then_assemble tone_fs hold_codec "tone.wav"
           (mkAudioFile 16384%Z (repeat 0%Z 16384))).
  - vm_compute. reflexivity.
  - reflexivity.
Defined.
